(** * Layoutable: sizing policies, measurement and placement

    A shallow embedding of bokehjs' [Layoutable] base class and of the
    [LayoutItem] leaf, with the properties of its sizing model, aspect
    reconciliation, clamping and measure/compute protocol.

    - JavaScript numbers are IEEE 754 binary64 values: [spec_float] with
      [prec = 53] and [emax = 1024], round to nearest even, one NaN. The
      statements quantify over all of [spec_float], of which the doubles
      are the values with a canonical mantissa and exponent.
    - The element is an object with two mutable fields ([_bbox], [_sizing]);
      methods are computations in a state-and-exception monad over it.
    - The abstract hook [_measure] and the overridable hooks [_init] and
      [_set_geometry] are the methods of a type class; [LayoutItem] is an
      instance. *)

From Stdlib Require Import ZArith Lia Bool String Setoid.
From Stdlib Require Import Floats.SpecFloat.

Local Open Scope Z_scope.

(** ** Numbers *)

Definition number : Type := spec_float.

Module Number.

Definition prec : Z := 53.
Definition emax : Z := 1024.

(** An integer literal of the source, rounded to binary64. *)
Definition of_Z (z : Z) : number := binary_normalize prec emax z 0 false.

Definition Infinity : number := S754_infinity false.
Definition NaN : number := S754_nan.
Definition zero : number := S754_zero false.

Definition add : number -> number -> number := SFadd prec emax.
Definition sub : number -> number -> number := SFsub prec emax.
Definition mul : number -> number -> number := SFmul prec emax.
Definition div : number -> number -> number := SFdiv prec emax.

(** [a == b], [a < b], [a <= b] and [a > b] on numbers. *)
Definition eqb : number -> number -> bool := SFeqb.
Definition ltb : number -> number -> bool := SFltb.
Definition leb : number -> number -> bool := SFleb.
Definition gtb (a b : number) : bool := SFltb b a.

Definition is_nan (a : number) : bool :=
  match a with S754_nan => true | _ => false end.

Definition is_zero (a : number) : bool :=
  match a with S754_zero _ => true | _ => false end.

Definition is_pos_zero (a : number) : bool :=
  match a with S754_zero false => true | _ => false end.

Definition is_neg_zero (a : number) : bool :=
  match a with S754_zero true => true | _ => false end.

End Number.

(** The three functions of the [Math] object the source uses, after
    ECMA-262: [min] and [max] return NaN as soon as one argument is NaN and
    order -0 below +0. *)
Module Math.

Definition abs : number -> number := SFabs.

Definition max (a b : number) : number :=
  if Number.is_nan a || Number.is_nan b then Number.NaN
  else if Number.gtb b a || (Number.is_pos_zero b && Number.is_neg_zero a)
       then b else a.

Definition min (a b : number) : number :=
  if Number.is_nan a || Number.is_nan b then Number.NaN
  else if Number.ltb b a || (Number.is_neg_zero b && Number.is_pos_zero a)
       then b else a.

End Math.

Declare Scope number_scope.
Delimit Scope number_scope with num.
Bind Scope number_scope with number.
Notation "a + b" := (Number.add a b) : number_scope.
Notation "a - b" := (Number.sub a b) : number_scope.
Notation "a * b" := (Number.mul a b) : number_scope.
Notation "a / b" := (Number.div a b) : number_scope.
Notation "a <=? b" := (Number.leb a b) : number_scope.
Notation "a <? b" := (Number.ltb a b) : number_scope.
Notation "a >? b" := (Number.gtb a b) : number_scope.
Notation "a =? b" := (Number.eqb a b) : number_scope.
Notation "# z" := (Number.of_Z z) (at level 1, format "# z") : number_scope.

(** ** Value types *)

Module Size.
Record t : Type := mk { width : number; height : number }.
End Size.
Abbreviation Size := Size.t.

(** [Partial<Size>]: every field may be missing. *)
Module PartialSize.
Record t : Type := mk { width : option number; height : option number }.
End PartialSize.

Module Margin.
Record t : Type :=
  mk { left : number; top : number; right : number; bottom : number }.
End Margin.
Abbreviation Margin := Margin.t.

Module SizingPolicy.
Inductive t : Type := fixed | fit | min | max.

Definition eqb (p q : t) : bool :=
  match p, q with
  | fixed, fixed | fit, fit | min, min | max, max => true
  | _, _ => false
  end.

Definition neqb (p q : t) : bool := negb (eqb p q).
End SizingPolicy.
Abbreviation SizingPolicy := SizingPolicy.t.

(** [SizeHint = Size & {inner?: Margin}]. *)
Module SizeHint.
Record t : Type :=
  mk { width : number; height : number; inner : option Margin }.
End SizeHint.
Abbreviation SizeHint := SizeHint.t.

Module BoxSizing.
Record t : Type := mk {
  width_policy : SizingPolicy;
  min_width : number;
  width : option number;
  max_width : number;

  height_policy : SizingPolicy;
  min_height : number;
  height : option number;
  max_height : number;

  aspect : option number;
  margin : Margin
}.
End BoxSizing.
Abbreviation BoxSizing := BoxSizing.t.

(** [Partial<BoxSizing>], the argument of [set_sizing]. *)
Module PartialBoxSizing.
Record t : Type := mk {
  width_policy : option SizingPolicy;
  min_width : option number;
  width : option number;
  max_width : option number;

  height_policy : option SizingPolicy;
  min_height : option number;
  height : option number;
  max_height : option number;

  aspect : option number;
  margin : option Margin
}.

(** The object literal [{}]. *)
Definition empty : t :=
  mk None None None None None None None None None None.
End PartialBoxSizing.

(** Modelled from the spec: the rectangle class [BBox] of [../util/bbox],
    which the source imports and only constructs. The spec describes it as
    an opaque immutable value built from [{left, top, width, height}] or
    from [{left, top, right, bottom}]; a box is modelled as the object it
    was constructed from. *)
Inductive BBox : Type :=
| BBox_ltwh (left top width height : number)
| BBox_ltrb (left top right bottom : number).

(** ** The element and its monad *)

(** The two mutable fields of a [Layoutable]. [_sizing] is declared without
    an initializer: it is undefined until [set_sizing] runs. *)
Record Layoutable : Type := mkLayoutable {
  _bbox : BBox;
  _sizing : option BoxSizing
}.

(** The state [new Layoutable()] leaves. *)
Definition new_Layoutable : Layoutable :=
  {| _bbox := BBox_ltwh Number.zero Number.zero Number.zero Number.zero;
     _sizing := None |}.

(** What a method can throw: [new Error(message)], or the [TypeError] of a
    property read on an undefined [sizing]. *)
Inductive exn : Type :=
| Error (message : string)
| TypeError.

(** A method body: from the element's state to a thrown exception or a
    returned value, together with the state it leaves. *)
Definition M (A : Type) : Type := Layoutable -> (exn + A) * Layoutable.

Definition ret {A : Type} (a : A) : M A := fun s => (inr a, s).

Definition throw {A : Type} (e : exn) : M A := fun s => (inl e, s).

Definition bind {A B : Type} (m : M A) (k : A -> M B) : M B :=
  fun s =>
    match m s with
    | (inr a, s') => k a s'
    | (inl e, s') => (inl e, s')
    end.

Declare Scope monad_scope.
Delimit Scope monad_scope with monad.
Notation "x <- m ;; k" := (bind m (fun x => k))
  (at level 61, m at next level, right associativity) : monad_scope.
Notation "m ;; k" := (bind m (fun _ => k))
  (at level 61, right associativity) : monad_scope.
Local Open Scope monad_scope.

(** [this.sizing.<field>]: reading a field of an undefined [sizing]
    throws. *)
Definition sizing : M BoxSizing :=
  fun s =>
    match _sizing s with
    | Some z => (inr z, s)
    | None => (inl TypeError, s)
    end.

(** [this.bbox]. *)
Definition bbox : M BBox := fun s => (inr (_bbox s), s).

Definition put_sizing (z : BoxSizing) : M unit :=
  fun s => (inr tt, {| _bbox := _bbox s; _sizing := Some z |}).

Definition put_bbox (b : BBox) : M unit :=
  fun s => (inr tt, {| _bbox := b; _sizing := _sizing s |}).

(** The override points of the class: the abstract [_measure] and the two
    protected methods with a default body. A hook may read and write the
    element and may throw. The viewport handed to [_measure] is passed by
    value: a hook that assigns to the fields of its argument is outside the
    model ([LayoutItem._measure] does not). *)
Class Element : Type := {
  _measure : Size -> M SizeHint;
  _init : M unit;
  _set_geometry : BBox -> BBox -> M unit
}.

(** The bodies [Layoutable] itself gives to [_init] and [_set_geometry]. *)
Module Base.
Definition _init : M unit := ret tt.

Definition _set_geometry (outer _inner : BBox) : M unit := put_bbox outer.
End Base.

(** ** Methods of [Layoutable] *)

Definition or_else {A : Type} (o : option A) (d : A) : A :=
  match o with Some a => a | None => d end.

Section Methods.

Context {E : Element}.

Definition set_sizing (sizing : PartialBoxSizing.t) : M unit :=
  let width_policy := PartialBoxSizing.width_policy sizing in
  let height_policy := PartialBoxSizing.height_policy sizing in
  let min_width := PartialBoxSizing.min_width sizing in
  let max_width := PartialBoxSizing.max_width sizing in
  let width := PartialBoxSizing.width sizing in
  let min_height := PartialBoxSizing.min_height sizing in
  let max_height := PartialBoxSizing.max_height sizing in
  let height := PartialBoxSizing.height sizing in
  let aspect := PartialBoxSizing.aspect sizing in
  let margin := PartialBoxSizing.margin sizing in
  put_sizing {|
    BoxSizing.width_policy := or_else width_policy SizingPolicy.fit;
    BoxSizing.min_width := or_else min_width Number.zero;
    BoxSizing.width := width;
    BoxSizing.max_width := or_else max_width Number.Infinity;

    BoxSizing.height_policy := or_else height_policy SizingPolicy.fit;
    BoxSizing.min_height := or_else min_height Number.zero;
    BoxSizing.height := height;
    BoxSizing.max_height := or_else max_height Number.Infinity;

    BoxSizing.aspect := aspect;
    BoxSizing.margin :=
      or_else margin
        {| Margin.top := Number.zero; Margin.right := Number.zero;
           Margin.bottom := Number.zero; Margin.left := Number.zero |}
  |} ;;
  _init.

Definition set_geometry (outer : BBox) (inner : option BBox) : M unit :=
  _set_geometry outer (or_else inner outer).

Definition is_width_expanding : M bool :=
  z <- sizing ;;
  ret (SizingPolicy.eqb (BoxSizing.width_policy z) SizingPolicy.max).

Definition is_height_expanding : M bool :=
  z <- sizing ;;
  ret (SizingPolicy.eqb (BoxSizing.height_policy z) SizingPolicy.max).

Definition apply_aspect (viewport : Size) (size : Size) : M Size :=
  let width := Size.width size in
  let height := Size.height size in
  z <- sizing ;;
  match BoxSizing.aspect z with
  | Some aspect =>
      z <- sizing ;;
      let width_policy := BoxSizing.width_policy z in
      let height_policy := BoxSizing.height_policy z in
      if SizingPolicy.neqb width_policy SizingPolicy.fixed
         && SizingPolicy.neqb height_policy SizingPolicy.fixed
      then
        let w_width := width in
        let w_height := (width / aspect)%num in
        let h_width := (height * aspect)%num in
        let h_height := height in
        let w_diff :=
          (Math.abs (Size.width viewport - w_width)
           + Math.abs (Size.height viewport - w_height))%num in
        let h_diff :=
          (Math.abs (Size.width viewport - h_width)
           + Math.abs (Size.height viewport - h_height))%num in
        if (w_diff <=? h_diff)%num
        then ret {| Size.width := w_width; Size.height := w_height |}
        else ret {| Size.width := h_width; Size.height := h_height |}
      else if SizingPolicy.neqb width_policy SizingPolicy.fixed
      then ret {| Size.width := width; Size.height := (width / aspect)%num |}
      else if SizingPolicy.neqb height_policy SizingPolicy.fixed
      then ret {| Size.width := (height * aspect)%num; Size.height := height |}
      else throw (Error "unrechable")
  | None => ret {| Size.width := width; Size.height := height |}
  end.

Definition clip_width (width : number) : M number :=
  z <- sizing ;;
  ret (Math.max (BoxSizing.min_width z)
                (Math.min width (BoxSizing.max_width z))).

Definition clip_height (height : number) : M number :=
  z <- sizing ;;
  ret (Math.max (BoxSizing.min_height z)
                (Math.min height (BoxSizing.max_height z))).

Definition clip_size (size : Size) : M Size :=
  w <- clip_width (Size.width size) ;;
  h <- clip_height (Size.height size) ;;
  ret {| Size.width := w; Size.height := h |}.

Definition measure (viewport : Size) : M SizeHint :=
  z <- sizing ;;
  let width_policy := BoxSizing.width_policy z in
  let height_policy := BoxSizing.height_policy z in
  clipped <- clip_size viewport ;;
  z <- sizing ;;
  let clipped :=
    match BoxSizing.width z with
    | Some w =>
        if SizingPolicy.eqb width_policy SizingPolicy.fixed
        then {| Size.width := w; Size.height := Size.height clipped |}
        else clipped
    | None => clipped
    end in
  let clipped :=
    match BoxSizing.height z with
    | Some h =>
        if SizingPolicy.eqb height_policy SizingPolicy.fixed
        then {| Size.width := Size.width clipped; Size.height := h |}
        else clipped
    | None => clipped
    end in
  computed <- _measure clipped ;;
  z <- sizing ;;
  let width :=
    if SizingPolicy.eqb width_policy SizingPolicy.fixed
    then or_else (BoxSizing.width z) (SizeHint.width computed)
    else SizeHint.width computed in
  let height :=
    if SizingPolicy.eqb height_policy SizingPolicy.fixed
    then or_else (BoxSizing.height z) (SizeHint.height computed)
    else SizeHint.height computed in
  size <- apply_aspect clipped {| Size.width := width; Size.height := height |} ;;
  ret {| SizeHint.width := Size.width size;
         SizeHint.height := Size.height size;
         SizeHint.inner := SizeHint.inner computed |}.

Definition compute (viewport : option PartialSize.t) : M unit :=
  size_hint <- measure {|
    Size.width :=
      match viewport with
      | Some v => or_else (PartialSize.width v) Number.Infinity
      | None => Number.Infinity
      end;
    Size.height :=
      match viewport with
      | Some v => or_else (PartialSize.height v) Number.Infinity
      | None => Number.Infinity
      end
  |} ;;
  let width := SizeHint.width size_hint in
  let height := SizeHint.height size_hint in
  let outer := BBox_ltwh Number.zero Number.zero width height in
  let inner :=
    match SizeHint.inner size_hint with
    | Some m =>
        Some (BBox_ltrb (Margin.left m) (Margin.top m)
                        (width - Margin.right m)%num
                        (height - Margin.bottom m)%num)
    | None => None
    end in
  set_geometry outer inner.

End Methods.

(** ** The leaf element *)

#[export] Instance LayoutItem : Element := {
  _measure viewport :=
    ret {| SizeHint.width :=
             if negb (Size.width viewport =? Number.Infinity)%num
             then Size.width viewport else Number.zero;
           SizeHint.height :=
             if negb (Size.height viewport =? Number.Infinity)%num
             then Size.height viewport else Number.zero;
           SizeHint.inner := None |};
  _init := Base._init;
  _set_geometry := Base._set_geometry
}.

(** ** The order on numbers *)

(** Every number that is not NaN has a place in a lexicographic order on
    integer triples: class (infinite, finite, zero; by sign), exponent,
    mantissa. The comparisons of the source are decided by it. *)
Module NumberOrder.

Definition key (x : number) : Z * Z * Z :=
  match x with
  | S754_nan => (3, 0, 0)
  | S754_infinity true => (-2, 0, 0)
  | S754_infinity false => (2, 0, 0)
  | S754_zero _ => (0, 0, 0)
  | S754_finite false m e => (1, e, Zpos m)
  | S754_finite true m e => (-1, - e, Zneg m)
  end.

Definition klt (p q : Z * Z * Z) : Prop :=
  let '(a1, a2, a3) := p in
  let '(b1, b2, b3) := q in
  a1 < b1 \/ (a1 = b1 /\ (a2 < b2 \/ (a2 = b2 /\ a3 < b3))).

Definition real (x : number) : Prop := Number.is_nan x = false.

End NumberOrder.

(** ** Properties of method bodies *)

(** A computation that leaves the element as it found it, whether it
    returns or throws. *)
Definition preserves_state {A : Type} (m : M A) : Prop :=
  forall s, snd (m s) = s.

(** A computation whose outcome is decided by the sizing configuration
    alone: the bounding box is not read. *)
Definition reads_sizing_only {A : Type} (m : M A) : Prop :=
  forall s s', _sizing s = _sizing s' -> fst (m s) = fst (m s').

(** A query: a function of its arguments and of the current sizing. *)
Definition pure {A : Type} (m : M A) : Prop :=
  preserves_state m /\ reads_sizing_only m.

(** The hooks of [E] are the default bodies of the base class. *)
Definition default_init (E : Element) : Prop :=
  forall s, _init s = Base._init s.

Definition default_set_geometry (E : Element) : Prop :=
  forall outer inner s, _set_geometry outer inner s = Base._set_geometry outer inner s.

(** What the clamp [c] of [v] into [lo .. hi] satisfies, case by case.
    Inside the range the clamp is [==] to [v], and is [v] itself unless [v]
    is a zero (whose sign may change). *)
Definition clamp_cases (lo hi v c : number) : Prop :=
  ((lo <=? v)%num = true -> (v <=? hi)%num = true ->
   (c =? v)%num = true /\ (Number.is_zero v = false -> c = v)) /\
  ((v <? lo)%num = true -> Number.is_nan hi = false -> c = lo) /\
  ((v >? hi)%num = true -> (lo <=? hi)%num = true ->
   (c =? hi)%num = true /\ (Number.is_zero hi = false -> c = hi)) /\
  ((lo >? hi)%num = true -> Number.is_nan v = false -> c = lo).

(** ** Elements and configurations used in the examples *)

Module Scenario.

(** A [LayoutItem] after [set_sizing(p)]. *)
Definition leaf (p : PartialBoxSizing.t) : Layoutable :=
  snd (set_sizing (E := LayoutItem) p new_Layoutable).

(** [{aspect: 2, width_policy: "fixed", width: 50}]. *)
Definition fixed_width : PartialBoxSizing.t :=
  {| PartialBoxSizing.width_policy := Some SizingPolicy.fixed;
     PartialBoxSizing.min_width := None;
     PartialBoxSizing.width := Some (Number.of_Z 50);
     PartialBoxSizing.max_width := None;
     PartialBoxSizing.height_policy := None;
     PartialBoxSizing.min_height := None;
     PartialBoxSizing.height := None;
     PartialBoxSizing.max_height := None;
     PartialBoxSizing.aspect := Some (Number.of_Z 2);
     PartialBoxSizing.margin := None |}.

(** [{aspect: 2, height_policy: "fixed", height: 50}]. *)
Definition fixed_height : PartialBoxSizing.t :=
  {| PartialBoxSizing.width_policy := None;
     PartialBoxSizing.min_width := None;
     PartialBoxSizing.width := None;
     PartialBoxSizing.max_width := None;
     PartialBoxSizing.height_policy := Some SizingPolicy.fixed;
     PartialBoxSizing.min_height := None;
     PartialBoxSizing.height := Some (Number.of_Z 50);
     PartialBoxSizing.max_height := None;
     PartialBoxSizing.aspect := Some (Number.of_Z 2);
     PartialBoxSizing.margin := None |}.

(** [{width_policy: "fixed", width: 50}]: no aspect. *)
Definition fixed_width_only : PartialBoxSizing.t :=
  {| PartialBoxSizing.width_policy := Some SizingPolicy.fixed;
     PartialBoxSizing.min_width := None;
     PartialBoxSizing.width := Some (Number.of_Z 50);
     PartialBoxSizing.max_width := None;
     PartialBoxSizing.height_policy := None;
     PartialBoxSizing.min_height := None;
     PartialBoxSizing.height := None;
     PartialBoxSizing.max_height := None;
     PartialBoxSizing.aspect := None;
     PartialBoxSizing.margin := None |}.

(** [{aspect: 2}]: both policies default to "fit". *)
Definition free_aspect : PartialBoxSizing.t :=
  {| PartialBoxSizing.width_policy := None;
     PartialBoxSizing.min_width := None;
     PartialBoxSizing.width := None;
     PartialBoxSizing.max_width := None;
     PartialBoxSizing.height_policy := None;
     PartialBoxSizing.min_height := None;
     PartialBoxSizing.height := None;
     PartialBoxSizing.max_height := None;
     PartialBoxSizing.aspect := Some (Number.of_Z 2);
     PartialBoxSizing.margin := None |}.

(** [{aspect: 2, width_policy: "fixed", width: 50,
      height_policy: "fixed", height: 50}]. *)
Definition both_fixed : PartialBoxSizing.t :=
  {| PartialBoxSizing.width_policy := Some SizingPolicy.fixed;
     PartialBoxSizing.min_width := None;
     PartialBoxSizing.width := Some (Number.of_Z 50);
     PartialBoxSizing.max_width := None;
     PartialBoxSizing.height_policy := Some SizingPolicy.fixed;
     PartialBoxSizing.min_height := None;
     PartialBoxSizing.height := Some (Number.of_Z 50);
     PartialBoxSizing.max_height := None;
     PartialBoxSizing.aspect := Some (Number.of_Z 2);
     PartialBoxSizing.margin := None |}.

(** [{min_width: lo, max_width: hi, min_height: lo, max_height: hi}]. *)
Definition clamps (lo hi : number) : PartialBoxSizing.t :=
  {| PartialBoxSizing.width_policy := None;
     PartialBoxSizing.min_width := Some lo;
     PartialBoxSizing.width := None;
     PartialBoxSizing.max_width := Some hi;
     PartialBoxSizing.height_policy := None;
     PartialBoxSizing.min_height := Some lo;
     PartialBoxSizing.height := None;
     PartialBoxSizing.max_height := Some hi;
     PartialBoxSizing.aspect := None;
     PartialBoxSizing.margin := None |}.

Definition size (w h : Z) : Size :=
  {| Size.width := Number.of_Z w; Size.height := Number.of_Z h |}.

Definition unbounded : Size :=
  {| Size.width := Number.Infinity; Size.height := Number.Infinity |}.

(** A subclass that is not in the source, for running [compute] through
    its inner-box branch: its [_measure] fills the viewport and reserves
    the margin [m]. *)
Definition Padded (m : Margin) : Element :=
  {| _measure viewport :=
       ret {| SizeHint.width := Size.width viewport;
              SizeHint.height := Size.height viewport;
              SizeHint.inner := Some m |};
     _init := Base._init;
     _set_geometry := Base._set_geometry |}.

End Scenario.

(** ** The order [Math.min] and [Math.max] choose by *)

(** [Math.min] and [Math.max] tell the two zeros apart: the key of a
    number, with -0 placed just below +0. On this order no two numbers
    tie. *)
Module NumberRank.

Definition rank (x : number) : Z * Z * Z :=
  match x with
  | S754_zero true => (0, 0, 0)
  | S754_zero false => (0, 0, 1)
  | _ => NumberOrder.key x
  end.

(** Less or equal, on keys and on ranks. *)
Definition kle (p q : Z * Z * Z) : Prop := NumberOrder.klt p q \/ p = q.

End NumberRank.

(** ** The computed variables of the constructor *)

(** [ComputedVariable]: an object whose only member is the getter
    [value]. *)
Record ComputedVariable : Type := { value : M number }.

Section Constructor.

(** Modelled from the spec: the accessors [top], [left], [width],
    [height], [right], [bottom], [hcenter] and [vcenter] of [BBox], which
    the spec lists and leaves opaque; they are parameters here. *)
Variables top left width height right bottom hcenter vcenter : BBox -> number.

(** [{ get value() { return layout.bbox.<accessor> } }]: the getter closes
    over the element, not over the box the element had at construction. *)
Definition _top : ComputedVariable := {| value := b <- bbox ;; ret (top b) |}.
Definition _left : ComputedVariable := {| value := b <- bbox ;; ret (left b) |}.
Definition _width : ComputedVariable := {| value := b <- bbox ;; ret (width b) |}.
Definition _height : ComputedVariable := {| value := b <- bbox ;; ret (height b) |}.
Definition _right : ComputedVariable := {| value := b <- bbox ;; ret (right b) |}.
Definition _bottom : ComputedVariable := {| value := b <- bbox ;; ret (bottom b) |}.
Definition _hcenter : ComputedVariable := {| value := b <- bbox ;; ret (hcenter b) |}.
Definition _vcenter : ComputedVariable := {| value := b <- bbox ;; ret (vcenter b) |}.

End Constructor.

(** ** Further configurations used in the examples *)

Module Scenario2.

(** [{width_policy: "fixed", width: 50, height_policy: "fixed",
      height: 30}]: no aspect. *)
Definition fixed_box : PartialBoxSizing.t :=
  {| PartialBoxSizing.width_policy := Some SizingPolicy.fixed;
     PartialBoxSizing.min_width := None;
     PartialBoxSizing.width := Some (Number.of_Z 50);
     PartialBoxSizing.max_width := None;
     PartialBoxSizing.height_policy := Some SizingPolicy.fixed;
     PartialBoxSizing.min_height := None;
     PartialBoxSizing.height := Some (Number.of_Z 30);
     PartialBoxSizing.max_height := None;
     PartialBoxSizing.aspect := None;
     PartialBoxSizing.margin := None |}.

(** [{width_policy: wp, height_policy: hp, aspect: 2}]. *)
Definition policies (wp hp : SizingPolicy) : PartialBoxSizing.t :=
  {| PartialBoxSizing.width_policy := Some wp;
     PartialBoxSizing.min_width := None;
     PartialBoxSizing.width := None;
     PartialBoxSizing.max_width := None;
     PartialBoxSizing.height_policy := Some hp;
     PartialBoxSizing.min_height := None;
     PartialBoxSizing.height := None;
     PartialBoxSizing.max_height := None;
     PartialBoxSizing.aspect := Some (Number.of_Z 2);
     PartialBoxSizing.margin := None |}.

(** The configuration [z] with its two policies replaced. *)
Definition with_policies (z : BoxSizing) (wp hp : SizingPolicy) : BoxSizing :=
  {| BoxSizing.width_policy := wp;
     BoxSizing.min_width := BoxSizing.min_width z;
     BoxSizing.width := BoxSizing.width z;
     BoxSizing.max_width := BoxSizing.max_width z;
     BoxSizing.height_policy := hp;
     BoxSizing.min_height := BoxSizing.min_height z;
     BoxSizing.height := BoxSizing.height z;
     BoxSizing.max_height := BoxSizing.max_height z;
     BoxSizing.aspect := BoxSizing.aspect z;
     BoxSizing.margin := BoxSizing.margin z |}.

End Scenario2.

(** ** Facts on the order of numbers *)

Module NumberOrderFacts.

Import NumberOrder.

Lemma compare_spec (a b : number) :
  real a -> real b ->
  match SFcompare a b with
  | Some Lt => klt (key a) (key b)
  | Some Eq => key a = key b
  | Some Gt => klt (key b) (key a)
  | None => False
  end.
Proof.
  unfold real.
  destruct a as [sa|sa| |sa ma ea]; destruct b as [sb|sb| |sb mb eb];
    simpl; try discriminate; intros _ _;
    try destruct sa; try destruct sb; simpl; try lia; try reflexivity.
  - destruct (Z.compare_spec ea eb) as [He|He|He]; simpl; try lia.
    subst eb. change (Pos.compare_cont Eq ma mb) with (Pos.compare ma mb).
    destruct (Pos.compare_spec ma mb) as [Hm|Hm|Hm]; simpl;
      try (subst; reflexivity); lia.
  - destruct (Z.compare_spec ea eb) as [He|He|He]; simpl; try lia.
    subst eb. change (Pos.compare_cont Eq ma mb) with (Pos.compare ma mb).
    destruct (Pos.compare_spec ma mb) as [Hm|Hm|Hm]; simpl;
      try (subst; reflexivity); lia.
Qed.

Lemma compare_nan (a b : number) :
  Number.is_nan a = true \/ Number.is_nan b = true -> SFcompare a b = None.
Proof.
  destruct a, b; simpl; intros [H|H]; try discriminate; reflexivity.
Qed.

Lemma klt_irrefl (p : Z * Z * Z) : ~ klt p p.
Proof. destruct p as [[a b] c]; simpl; lia. Qed.

Lemma klt_asym (p q : Z * Z * Z) : klt p q -> ~ klt q p.
Proof. destruct p as [[a b] c], q as [[a' b'] c']; simpl; lia. Qed.

Lemma klt_trans (p q r : Z * Z * Z) : klt p q -> klt q r -> klt p r.
Proof.
  destruct p as [[a b] c], q as [[a' b'] c'], r as [[a'' b''] c''];
    simpl; lia.
Qed.

Lemma klt_total (p q : Z * Z * Z) : klt p q \/ p = q \/ klt q p.
Proof.
  destruct p as [[a b] c], q as [[a' b'] c']; simpl.
  destruct (Z.lt_trichotomy a a') as [?|[?|?]]; [lia| |lia].
  destruct (Z.lt_trichotomy b b') as [?|[?|?]]; [lia| |lia].
  destruct (Z.lt_trichotomy c c') as [?|[?|?]]; [lia| |lia].
  subst. right; left; reflexivity.
Qed.

Lemma ltb_spec (a b : number) :
  (a <? b)%num = true <-> real a /\ real b /\ klt (key a) (key b).
Proof.
  unfold Number.ltb, SFltb. split.
  - destruct (Number.is_nan a) eqn:Ha;
      [rewrite compare_nan by (left; assumption); discriminate|].
    destruct (Number.is_nan b) eqn:Hb;
      [rewrite compare_nan by (right; assumption); discriminate|].
    pose proof (compare_spec a b Ha Hb) as H.
    destruct (SFcompare a b) as [[| |]|]; try discriminate.
    intros _. repeat split; assumption.
  - intros (Ha & Hb & Hlt).
    pose proof (compare_spec a b Ha Hb) as H.
    destruct (SFcompare a b) as [[| |]|]; try reflexivity; try contradiction.
    + rewrite H in Hlt. destruct (klt_irrefl _ Hlt).
    + destruct (klt_asym _ _ H Hlt).
Qed.

Lemma eqb_spec (a b : number) :
  (a =? b)%num = true <-> real a /\ real b /\ key a = key b.
Proof.
  unfold Number.eqb, SFeqb. split.
  - destruct (Number.is_nan a) eqn:Ha;
      [rewrite compare_nan by (left; assumption); discriminate|].
    destruct (Number.is_nan b) eqn:Hb;
      [rewrite compare_nan by (right; assumption); discriminate|].
    pose proof (compare_spec a b Ha Hb) as H.
    destruct (SFcompare a b) as [[| |]|]; try discriminate.
    intros _. repeat split; assumption.
  - intros (Ha & Hb & Heq).
    pose proof (compare_spec a b Ha Hb) as H.
    destruct (SFcompare a b) as [[| |]|]; try reflexivity; try contradiction.
    + rewrite Heq in H. destruct (klt_irrefl _ H).
    + rewrite Heq in H. destruct (klt_irrefl _ H).
Qed.

Lemma leb_spec (a b : number) :
  (a <=? b)%num = true <->
  real a /\ real b /\ (klt (key a) (key b) \/ key a = key b).
Proof.
  unfold Number.leb, SFleb. split.
  - destruct (Number.is_nan a) eqn:Ha;
      [rewrite compare_nan by (left; assumption); discriminate|].
    destruct (Number.is_nan b) eqn:Hb;
      [rewrite compare_nan by (right; assumption); discriminate|].
    pose proof (compare_spec a b Ha Hb) as H.
    destruct (SFcompare a b) as [[| |]|]; try discriminate;
      intros _; repeat split; auto.
  - intros (Ha & Hb & Hle).
    pose proof (compare_spec a b Ha Hb) as H.
    destruct (SFcompare a b) as [[| |]|]; try reflexivity; try contradiction.
    destruct Hle as [Hlt|Heq].
    + destruct (klt_asym _ _ H Hlt).
    + rewrite Heq in H. destruct (klt_irrefl _ H).
Qed.

Lemma gtb_spec (a b : number) :
  (a >? b)%num = true <-> real a /\ real b /\ klt (key b) (key a).
Proof. unfold Number.gtb. fold (Number.ltb b a). rewrite ltb_spec. tauto. Qed.

(** Two numbers with the same key are the same number, or two zeros. *)
Lemma key_inj (a b : number) :
  key a = key b -> a = b \/ (Number.is_zero a = true /\ Number.is_zero b = true).
Proof.
  destruct a as [sa|sa| |sa ma ea]; destruct b as [sb|sb| |sb mb eb];
    try destruct sa; try destruct sb; simpl; intros H;
    try discriminate; auto;
    injection H as He Hm; left; f_equal; lia.
Qed.

Lemma ltb_leb (a b : number) :
  (a <? b)%num = true -> (a <=? b)%num = true.
Proof.
  rewrite ltb_spec, leb_spec. intros (Ha & Hb & Hlt). auto.
Qed.

Lemma eqb_leb (a b : number) :
  (a =? b)%num = true -> (a <=? b)%num = true.
Proof.
  rewrite eqb_spec, leb_spec. intros (Ha & Hb & Heq). auto.
Qed.

Lemma gtb_not_leb (a b : number) :
  (b <? a)%num = true -> (a <=? b)%num = false.
Proof.
  rewrite ltb_spec. intros (Hb & Ha & Hlt).
  destruct (a <=? b)%num eqn:Hle; [|reflexivity].
  apply leb_spec in Hle. destruct Hle as (_ & _ & [H|H]).
  - destruct (klt_asym _ _ H Hlt).
  - rewrite H in Hlt. destruct (klt_irrefl _ Hlt).
Qed.

Lemma triple_eq (a b c a' b' c' : Z) :
  (a, b, c) = (a', b', c') <-> a = a' /\ b = b' /\ c = c'.
Proof.
  split.
  - intros H. injection H as H1 H2 H3. auto.
  - intros (H1 & H2 & H3). subst. reflexivity.
Qed.

(** Closing a goal on keys by linear arithmetic on their components. *)
Ltac key_lia :=
  repeat match goal with
         | H : context [key ?x] |- _ =>
             let p := fresh "p" in
             set (p := key x) in *; clearbody p; destruct p as [[? ?] ?]
         | |- context [key ?x] =>
             let p := fresh "p" in
             set (p := key x) in *; clearbody p; destruct p as [[? ?] ?]
         end;
  unfold klt in *;
  repeat match goal with
         | H : context [(_, _, _) = (_, _, _)] |- _ => rewrite triple_eq in H
         end;
  rewrite ?triple_eq;
  first [ lia | exfalso; lia ].

(** [Math.min] and [Math.max] on numbers that are not NaN: the result is
    one of the arguments, chosen by the order of the keys; on equal keys
    either argument may come back. *)
Lemma min_key (a b : number) :
  real a -> real b ->
  real (Math.min a b) /\
  ((klt (key b) (key a) /\ Math.min a b = b) \/
   (~ klt (key b) (key a) /\
    (Math.min a b = a \/ (Math.min a b = b /\ key a = key b)))).
Proof.
  intros Ha Hb. unfold Math.min. unfold real in Ha, Hb. rewrite Ha, Hb.
  cbn [orb].
  destruct (b <? a)%num eqn:Hlt.
  - apply ltb_spec in Hlt. cbn [orb]. split; [exact Hb|]. left. tauto.
  - assert (Hn : ~ klt (key b) (key a)).
    { intros H. assert (Ht : (b <? a)%num = true) by (apply ltb_spec; auto).
      congruence. }
    cbn [orb].
    destruct (Number.is_neg_zero b && Number.is_pos_zero a) eqn:Hz.
    + split; [exact Hb|]. right. split; [exact Hn|]. right. split; [reflexivity|].
      destruct a as [[|]| | |], b as [[|]| | |]; try discriminate; reflexivity.
    + split; [exact Ha|]. right. split; [exact Hn|]. left. reflexivity.
Qed.

Lemma max_key (a b : number) :
  real a -> real b ->
  real (Math.max a b) /\
  ((klt (key a) (key b) /\ Math.max a b = b) \/
   (~ klt (key a) (key b) /\
    (Math.max a b = a \/ (Math.max a b = b /\ key a = key b)))).
Proof.
  intros Ha Hb. unfold Math.max. unfold real in Ha, Hb. rewrite Ha, Hb.
  cbn [orb].
  destruct (b >? a)%num eqn:Hgt.
  - apply gtb_spec in Hgt. cbn [orb]. split; [exact Hb|]. left. tauto.
  - assert (Hn : ~ klt (key a) (key b)).
    { intros H. assert (Ht : (b >? a)%num = true) by (apply gtb_spec; auto).
      congruence. }
    cbn [orb].
    destruct (Number.is_pos_zero b && Number.is_neg_zero a) eqn:Hz.
    + split; [exact Hb|]. right. split; [exact Hn|]. right. split; [reflexivity|].
      destruct a as [[|]| | |], b as [[|]| | |]; try discriminate; reflexivity.
    + split; [exact Ha|]. right. split; [exact Hn|]. left. reflexivity.
Qed.

Lemma min_nan (a b : number) :
  Number.is_nan a = true \/ Number.is_nan b = true ->
  Math.min a b = Number.NaN.
Proof.
  intros H. unfold Math.min.
  destruct (Number.is_nan a), (Number.is_nan b), H; try discriminate; reflexivity.
Qed.

Lemma max_nan (a b : number) :
  Number.is_nan a = true \/ Number.is_nan b = true ->
  Math.max a b = Number.NaN.
Proof.
  intros H. unfold Math.max.
  destruct (Number.is_nan a), (Number.is_nan b), H; try discriminate; reflexivity.
Qed.

(** A number with the key of [v] is [==] to [v], and is [v] itself unless
    [v] is a zero. *)
Lemma same_key (c v : number) :
  real c -> real v -> key c = key v ->
  (c =? v)%num = true /\ (Number.is_zero v = false -> c = v).
Proof.
  intros Hc Hv Hk. split.
  - apply eqb_spec. auto.
  - intros Hz. destruct (key_inj c v Hk) as [H|[_ H]]; [exact H|congruence].
Qed.

(** The clamp [max(lo, min(v, hi))] of the source, case by case. *)
Lemma clamp_inside (lo hi v : number) :
  (lo <=? v)%num = true -> (v <=? hi)%num = true ->
  (Math.max lo (Math.min v hi) =? v)%num = true /\
  (Number.is_zero v = false -> Math.max lo (Math.min v hi) = v).
Proof.
  rewrite !leb_spec. intros (Hlo & Hv & H1) (_ & Hhi & H2).
  destruct (min_key v hi Hv Hhi) as [Hm Hmin].
  destruct (max_key lo (Math.min v hi) Hlo Hm) as [Hr Hmax].
  apply same_key; [exact Hr | exact Hv |].
  assert (Hkm : key (Math.min v hi) = key v).
  { destruct Hmin as [[Hlt _]|[_ [->|[-> He]]]]; [key_lia|reflexivity|key_lia]. }
  destruct Hmax as [[_ ->]|[Hn [->|[-> _]]]]; [exact Hkm| |exact Hkm].
  rewrite Hkm in Hn. key_lia.
Qed.

Lemma clamp_below (lo hi v : number) :
  (v <? lo)%num = true -> Number.is_nan hi = false ->
  Math.max lo (Math.min v hi) = lo.
Proof.
  rewrite ltb_spec. intros (Hv & Hlo & H1) Hhi.
  destruct (min_key v hi Hv Hhi) as [Hm Hmin].
  destruct (max_key lo (Math.min v hi) Hlo Hm) as [Hr Hmax].
  assert (Hkm : klt (key (Math.min v hi)) (key lo)).
  { destruct Hmin as [[Hlt ->]|[_ [->|[-> He]]]]; [key_lia|exact H1|key_lia]. }
  destruct Hmax as [[Hlt _]|[_ [H|[_ He]]]]; [key_lia|exact H|].
  rewrite He in Hkm. key_lia.
Qed.

Lemma clamp_above (lo hi v : number) :
  (v >? hi)%num = true -> (lo <=? hi)%num = true ->
  (Math.max lo (Math.min v hi) =? hi)%num = true /\
  (Number.is_zero hi = false -> Math.max lo (Math.min v hi) = hi).
Proof.
  rewrite gtb_spec, leb_spec. intros (Hv & Hhi & H1) (Hlo & _ & H2).
  destruct (min_key v hi Hv Hhi) as [Hm Hmin].
  assert (Hmh : Math.min v hi = hi).
  { destruct Hmin as [[_ H]|[Hn _]]; [exact H|contradiction]. }
  rewrite Hmh in *.
  destruct (max_key lo hi Hlo Hhi) as [Hr Hmax].
  apply same_key; [exact Hr | exact Hhi |].
  destruct Hmax as [[_ ->]|[Hn [->|[-> _]]]]; [reflexivity| |reflexivity].
  key_lia.
Qed.

Lemma clamp_inverted (lo hi v : number) :
  (lo >? hi)%num = true -> Number.is_nan v = false ->
  Math.max lo (Math.min v hi) = lo.
Proof.
  rewrite gtb_spec. intros (Hlo & Hhi & H1) Hv.
  destruct (min_key v hi Hv Hhi) as [Hm Hmin].
  destruct (max_key lo (Math.min v hi) Hlo Hm) as [Hr Hmax].
  assert (Hkm : klt (key (Math.min v hi)) (key lo)).
  { destruct Hmin as [[Hlt ->]|[Hn [->|[-> He]]]]; [exact H1| |exact H1].
    destruct (klt_total (key v) (key hi)) as [H|[H|H]];
      [key_lia | rewrite H; exact H1 | contradiction]. }
  destruct Hmax as [[Hlt _]|[_ [H|[_ He]]]]; [key_lia|exact H|].
  rewrite He in Hkm. key_lia.
Qed.

End NumberOrderFacts.

(** ** Running method bodies *)

Section MonadFacts.

Context {A B : Type}.

Lemma bind_inr (m : M A) (k : A -> M B) (s s' : Layoutable) (a : A) :
  m s = (inr a, s') -> bind m k s = k a s'.
Proof. intros H. unfold bind. rewrite H. reflexivity. Qed.

Lemma bind_inl (m : M A) (k : A -> M B) (s s' : Layoutable) (e : exn) :
  m s = (inl e, s') -> bind m k s = (inl e, s').
Proof. intros H. unfold bind. rewrite H. reflexivity. Qed.

Lemma preserves_bind (m : M A) (k : A -> M B) :
  preserves_state m -> (forall a, preserves_state (k a)) ->
  preserves_state (bind m k).
Proof.
  intros Hm Hk s. unfold bind.
  specialize (Hm s). destruct (m s) as [[e|a] s']; simpl in Hm; subst s'.
  - reflexivity.
  - apply Hk.
Qed.

Lemma pure_bind (m : M A) (k : A -> M B) :
  pure m -> (forall a, pure (k a)) -> pure (bind m k).
Proof.
  intros [Hm Rm] Hk. split.
  - apply preserves_bind; [assumption | intro a; apply Hk].
  - intros s s' Hs. unfold bind.
    pose proof (Rm s s' Hs) as Hr.
    pose proof (Hm s) as H1. pose proof (Hm s') as H2.
    destruct (m s) as [[e|a] t], (m s') as [[e'|a'] t'];
      simpl in *; subst t t'; try discriminate.
    + injection Hr as Hr. subst e'. reflexivity.
    + injection Hr as Hr. subst a'. apply Hk. assumption.
Qed.

End MonadFacts.

Lemma pure_ret {A : Type} (a : A) : pure (ret a).
Proof. split; intros s; reflexivity. Qed.

Lemma pure_throw {A : Type} (e : exn) : pure (throw (A := A) e).
Proof. split; intros s; reflexivity. Qed.

Lemma pure_sizing : pure sizing.
Proof.
  split.
  - intros s. unfold sizing. destruct (_sizing s); reflexivity.
  - intros s s' Hs. unfold sizing. rewrite Hs. destruct (_sizing s'); reflexivity.
Qed.

Lemma sizing_some (s : Layoutable) (z : BoxSizing) :
  _sizing s = Some z -> sizing s = (inr z, s).
Proof. intros H. unfold sizing. rewrite H. reflexivity. Qed.

Lemma sizing_none (s : Layoutable) :
  _sizing s = None -> sizing s = (inl TypeError, s).
Proof. intros H. unfold sizing. rewrite H. reflexivity. Qed.

(** Taking a method body apart along its control flow. *)
Ltac pure_step :=
  match goal with
  | |- pure (bind _ _) => apply pure_bind; [ | intro ]
  | |- pure (ret _) => apply pure_ret
  | |- pure (throw _) => apply pure_throw
  | |- pure sizing => apply pure_sizing
  | |- pure (if ?c then _ else _) => destruct c
  | |- pure (match ?o with Some _ => _ | None => _ end) => destruct o
  | H : forall v, pure (_ v) |- pure _ => apply H
  end.

Ltac preserves_step :=
  match goal with
  | |- preserves_state (bind _ _) => apply preserves_bind; [ | intro ]
  | |- preserves_state (if ?c then _ else _) => destruct c
  | |- preserves_state (match ?o with Some _ => _ | None => _ end) => destruct o
  | H : forall v, preserves_state (_ v) |- preserves_state _ => apply H
  | |- preserves_state (ret _) => apply pure_ret
  | |- preserves_state (throw _) => apply pure_throw
  | |- preserves_state sizing => apply pure_sizing
  end.

Section Queries.

Context {E : Element}.

Lemma apply_aspect_pure (viewport size : Size) :
  pure (apply_aspect viewport size).
Proof. unfold apply_aspect. cbv zeta. repeat pure_step. Qed.

Lemma clip_width_pure (width : number) : pure (clip_width width).
Proof. unfold clip_width. repeat pure_step. Qed.

Lemma clip_height_pure (height : number) : pure (clip_height height).
Proof. unfold clip_height. repeat pure_step. Qed.

Lemma clip_size_pure (size : Size) : pure (clip_size size).
Proof.
  unfold clip_size.
  apply pure_bind; [apply clip_width_pure | intro].
  apply pure_bind; [apply clip_height_pure | intro].
  apply pure_ret.
Qed.

Lemma is_width_expanding_pure : pure is_width_expanding.
Proof. unfold is_width_expanding. repeat pure_step. Qed.

Lemma is_height_expanding_pure : pure is_height_expanding.
Proof. unfold is_height_expanding. repeat pure_step. Qed.

Lemma measure_preserves (viewport : Size) :
  (forall v, preserves_state (_measure v)) ->
  preserves_state (measure viewport).
Proof.
  intros Hhook. unfold measure. cbv zeta.
  apply preserves_bind; [apply pure_sizing | intro z0].
  apply preserves_bind; [apply clip_size_pure | intro clipped].
  apply preserves_bind; [apply pure_sizing | intro z1].
  apply preserves_bind; [apply Hhook | intro computed].
  apply preserves_bind; [apply pure_sizing | intro z2].
  apply preserves_bind; [apply apply_aspect_pure | intro size].
  apply pure_ret.
Qed.

Lemma measure_pure (viewport : Size) :
  (forall v, pure (_measure v)) -> pure (measure viewport).
Proof.
  intros Hhook. unfold measure. cbv zeta.
  apply pure_bind; [apply pure_sizing | intro z0].
  apply pure_bind; [apply clip_size_pure | intro clipped].
  apply pure_bind; [apply pure_sizing | intro z1].
  apply pure_bind; [apply Hhook | intro computed].
  apply pure_bind; [apply pure_sizing | intro z2].
  apply pure_bind; [apply apply_aspect_pure | intro size].
  apply pure_ret.
Qed.

End Queries.

Lemma LayoutItem_measure_pure (v : Size) : pure (_measure (Element := LayoutItem) v).
Proof. apply pure_ret. Qed.

(** ** The methods on an element whose sizing is set *)

Lemma neqb_fixed (p : SizingPolicy) :
  SizingPolicy.neqb p SizingPolicy.fixed = true <-> p <> SizingPolicy.fixed.
Proof.
  destruct p; cbn; split; intros H;
    first [congruence | exfalso; apply H; reflexivity].
Qed.

Lemma neqb_fixed_false (p : SizingPolicy) :
  SizingPolicy.neqb p SizingPolicy.fixed = false <-> p = SizingPolicy.fixed.
Proof. destruct p; cbn; split; intros H; congruence. Qed.

Lemma eqb_fixed (p : SizingPolicy) :
  SizingPolicy.eqb p SizingPolicy.fixed = true <-> p = SizingPolicy.fixed.
Proof. destruct p; cbn; split; intros H; congruence. Qed.

Lemma Size_eta (size : Size) :
  {| Size.width := Size.width size; Size.height := Size.height size |} = size.
Proof. destruct size; reflexivity. Qed.

Section Runs.

Context {E : Element}.
Variables (s : Layoutable) (z : BoxSizing).
Hypothesis Hz : _sizing s = Some z.

Lemma clip_width_run (width : number) :
  clip_width width s =
  (inr (Math.max (BoxSizing.min_width z)
                 (Math.min width (BoxSizing.max_width z))), s).
Proof. unfold clip_width, bind. rewrite (sizing_some s z Hz). reflexivity. Qed.

Lemma clip_height_run (height : number) :
  clip_height height s =
  (inr (Math.max (BoxSizing.min_height z)
                 (Math.min height (BoxSizing.max_height z))), s).
Proof. unfold clip_height, bind. rewrite (sizing_some s z Hz). reflexivity. Qed.

Lemma clip_size_run (size : Size) :
  clip_size size s =
  (inr {| Size.width :=
            Math.max (BoxSizing.min_width z)
                     (Math.min (Size.width size) (BoxSizing.max_width z));
          Size.height :=
            Math.max (BoxSizing.min_height z)
                     (Math.min (Size.height size) (BoxSizing.max_height z)) |},
   s).
Proof.
  unfold clip_size.
  rewrite (bind_inr _ _ _ _ _ (clip_width_run (Size.width size))).
  rewrite (bind_inr _ _ _ _ _ (clip_height_run (Size.height size))).
  reflexivity.
Qed.

Lemma apply_aspect_none (viewport size : Size) :
  BoxSizing.aspect z = None ->
  apply_aspect viewport size s = (inr size, s).
Proof.
  intros Ha. unfold apply_aspect. cbv zeta.
  rewrite (bind_inr _ _ _ _ _ (sizing_some s z Hz)). rewrite Ha.
  unfold ret. rewrite Size_eta. reflexivity.
Qed.

Lemma apply_aspect_free (r : number) (viewport size : Size) :
  BoxSizing.aspect z = Some r ->
  BoxSizing.width_policy z <> SizingPolicy.fixed ->
  BoxSizing.height_policy z <> SizingPolicy.fixed ->
  apply_aspect viewport size s =
  (inr (if (Math.abs (Size.width viewport - Size.width size)
            + Math.abs (Size.height viewport - Size.width size / r)
            <=? Math.abs (Size.width viewport - Size.height size * r)
                + Math.abs (Size.height viewport - Size.height size))%num
        then {| Size.width := Size.width size;
                Size.height := (Size.width size / r)%num |}
        else {| Size.width := (Size.height size * r)%num;
                Size.height := Size.height size |}), s).
Proof.
  intros Ha Hw Hh. unfold apply_aspect. cbv zeta.
  rewrite (bind_inr _ _ _ _ _ (sizing_some s z Hz)). rewrite Ha.
  rewrite (bind_inr _ _ _ _ _ (sizing_some s z Hz)).
  apply neqb_fixed in Hw, Hh. rewrite Hw, Hh. simpl.
  destruct (_ <=? _)%num; reflexivity.
Qed.

(** Height fixed, width free: the second branch. *)
Lemma apply_aspect_height_fixed (r : number) (viewport size : Size) :
  BoxSizing.aspect z = Some r ->
  BoxSizing.width_policy z <> SizingPolicy.fixed ->
  BoxSizing.height_policy z = SizingPolicy.fixed ->
  apply_aspect viewport size s =
  (inr {| Size.width := Size.width size;
          Size.height := (Size.width size / r)%num |}, s).
Proof.
  intros Ha Hw Hh. unfold apply_aspect. cbv zeta.
  rewrite (bind_inr _ _ _ _ _ (sizing_some s z Hz)). rewrite Ha.
  rewrite (bind_inr _ _ _ _ _ (sizing_some s z Hz)).
  apply neqb_fixed in Hw. rewrite Hw, Hh. reflexivity.
Qed.

(** Width fixed, height free: the third branch. *)
Lemma apply_aspect_width_fixed (r : number) (viewport size : Size) :
  BoxSizing.aspect z = Some r ->
  BoxSizing.width_policy z = SizingPolicy.fixed ->
  BoxSizing.height_policy z <> SizingPolicy.fixed ->
  apply_aspect viewport size s =
  (inr {| Size.width := (Size.height size * r)%num;
          Size.height := Size.height size |}, s).
Proof.
  intros Ha Hw Hh. unfold apply_aspect. cbv zeta.
  rewrite (bind_inr _ _ _ _ _ (sizing_some s z Hz)). rewrite Ha.
  rewrite (bind_inr _ _ _ _ _ (sizing_some s z Hz)).
  apply neqb_fixed in Hh. rewrite Hw, Hh. reflexivity.
Qed.

Lemma apply_aspect_unreachable (r : number) (viewport size : Size) :
  BoxSizing.aspect z = Some r ->
  BoxSizing.width_policy z = SizingPolicy.fixed ->
  BoxSizing.height_policy z = SizingPolicy.fixed ->
  apply_aspect viewport size s = (inl (Error "unrechable"), s).
Proof.
  intros Ha Hw Hh. unfold apply_aspect. cbv zeta.
  rewrite (bind_inr _ _ _ _ _ (sizing_some s z Hz)). rewrite Ha.
  rewrite (bind_inr _ _ _ _ _ (sizing_some s z Hz)).
  rewrite Hw, Hh. reflexivity.
Qed.

(** [measure] up to its call of the hook, and from the hook's return on. *)
Lemma measure_run (viewport : Size) :
  let clipped :=
    {| Size.width :=
         Math.max (BoxSizing.min_width z)
                  (Math.min (Size.width viewport) (BoxSizing.max_width z));
       Size.height :=
         Math.max (BoxSizing.min_height z)
                  (Math.min (Size.height viewport) (BoxSizing.max_height z)) |} in
  let working :=
    {| Size.width :=
         match BoxSizing.width z with
         | Some w =>
             if SizingPolicy.eqb (BoxSizing.width_policy z) SizingPolicy.fixed
             then w else Size.width clipped
         | None => Size.width clipped
         end;
       Size.height :=
         match BoxSizing.height z with
         | Some h =>
             if SizingPolicy.eqb (BoxSizing.height_policy z) SizingPolicy.fixed
             then h else Size.height clipped
         | None => Size.height clipped
         end |} in
  measure viewport s =
  match _measure working s with
  | (inl e, s') => (inl e, s')
  | (inr computed, s') =>
      match _sizing s' with
      | None => (inl TypeError, s')
      | Some z' =>
          let width :=
            if SizingPolicy.eqb (BoxSizing.width_policy z) SizingPolicy.fixed
            then or_else (BoxSizing.width z') (SizeHint.width computed)
            else SizeHint.width computed in
          let height :=
            if SizingPolicy.eqb (BoxSizing.height_policy z) SizingPolicy.fixed
            then or_else (BoxSizing.height z') (SizeHint.height computed)
            else SizeHint.height computed in
          match apply_aspect working
                  {| Size.width := width; Size.height := height |} s' with
          | (inl e, s'') => (inl e, s'')
          | (inr size, s'') =>
              (inr {| SizeHint.width := Size.width size;
                      SizeHint.height := Size.height size;
                      SizeHint.inner := SizeHint.inner computed |}, s'')
          end
      end
  end.
Proof.
  cbv zeta. unfold measure. cbv zeta.
  rewrite (bind_inr _ _ _ _ _ (sizing_some s z Hz)).
  rewrite (bind_inr _ _ _ _ _ (clip_size_run viewport)).
  rewrite (bind_inr _ _ _ _ _ (sizing_some s z Hz)).
  cbn [Size.width Size.height].
  match goal with
  | |- bind (_measure ?a) _ _ = match _measure ?b _ with _ => _ end =>
      replace a with b
        by (destruct (BoxSizing.width z), (BoxSizing.height z),
              (SizingPolicy.eqb (BoxSizing.width_policy z) SizingPolicy.fixed),
              (SizingPolicy.eqb (BoxSizing.height_policy z) SizingPolicy.fixed);
            reflexivity)
  end.
  unfold bind at 1.
  destruct (_measure _ s) as [[e|computed] s']; [reflexivity|].
  unfold bind at 1. unfold sizing at 1.
  destruct (_sizing s') as [z'|]; [|reflexivity].
  unfold bind at 1.
  destruct (apply_aspect _ _ s') as [[e|size] s'']; reflexivity.
Qed.

End Runs.

(** [compute] from the outcome of its call to [measure]. *)
Lemma compute_run {E : Element} (viewport : option PartialSize.t) (s : Layoutable) :
  compute viewport s =
  match measure
          {| Size.width :=
               match viewport with
               | Some v => or_else (PartialSize.width v) Number.Infinity
               | None => Number.Infinity
               end;
             Size.height :=
               match viewport with
               | Some v => or_else (PartialSize.height v) Number.Infinity
               | None => Number.Infinity
               end |} s with
  | (inl e, s') => (inl e, s')
  | (inr hint, s') =>
      _set_geometry
        (BBox_ltwh Number.zero Number.zero
                   (SizeHint.width hint) (SizeHint.height hint))
        match SizeHint.inner hint with
        | Some m =>
            BBox_ltrb (Margin.left m) (Margin.top m)
                      (SizeHint.width hint - Margin.right m)%num
                      (SizeHint.height hint - Margin.bottom m)%num
        | None =>
            BBox_ltwh Number.zero Number.zero
                      (SizeHint.width hint) (SizeHint.height hint)
        end s'
  end.
Proof.
  unfold compute, bind.
  destruct (measure _ s) as [[e|hint] s']; [reflexivity|].
  cbv zeta. unfold set_geometry.
  destruct (SizeHint.inner hint); reflexivity.
Qed.

(** ** Frame properties: who writes the bounding box *)

(** C5: [measure] writes nothing. For every element whose [_measure] hook
    leaves the element as it found it, and every viewport, the state after
    [measure] (bounding box and sizing) is the state before it, whether
    [measure] returns or throws; the other queries ([apply_aspect],
    [clip_width], [clip_height], [clip_size]) write nothing either. The
    writers of the bounding box are [set_geometry] and [compute]: with the
    default placement hook, [set_geometry] stores the outer box. *)
Theorem measure_never_mutates (E : Element) :
  (forall v, preserves_state (_measure v)) ->
  forall (viewport : Size) (s : Layoutable),
    (_bbox (snd (measure viewport s)) = _bbox s /\
     snd (measure viewport s) = s) /\
    (forall size, snd (apply_aspect viewport size s) = s) /\
    (forall w, snd (clip_width w s) = s) /\
    (forall h, snd (clip_height h s) = s) /\
    snd (clip_size viewport s) = s /\
    (default_set_geometry E ->
     forall outer inner, _bbox (snd (set_geometry outer inner s)) = outer).
Proof.
  intros Hhook viewport s.
  pose proof (measure_preserves viewport Hhook s) as Hm.
  repeat split.
  - rewrite Hm. reflexivity.
  - exact Hm.
  - intros size. apply apply_aspect_pure.
  - intros w. apply clip_width_pure.
  - intros h. apply clip_height_pure.
  - apply clip_size_pure.
  - intros Hgeo outer inner. unfold set_geometry. rewrite Hgeo. reflexivity.
Qed.

Lemma measure_never_mutates_witness :
  (forall v, preserves_state (_measure (Element := LayoutItem) v)) /\
  _bbox (snd (measure (E := LayoutItem) (Scenario.size 120 40)
                (Scenario.leaf PartialBoxSizing.empty)))
  = _bbox (Scenario.leaf PartialBoxSizing.empty).
Proof.
  split.
  - intros v. apply LayoutItem_measure_pure.
  - apply (measure_never_mutates LayoutItem
             (fun v => proj1 (LayoutItem_measure_pure v))).
Defined.

(** C10: [set_sizing] writes the sizing configuration and nothing else.
    For every element with the default [_init] hook, [set_sizing(partial)]
    returns, leaves the bounding box as it was, and installs a
    configuration in which every absent field has its default: policies
    "fit", minima 0, maxima Infinity, a zero margin; [width], [height] and
    [aspect] are copied as given. *)
Theorem set_sizing_frame (E : Element) :
  default_init E ->
  forall (p : PartialBoxSizing.t) (s : Layoutable),
  exists z : BoxSizing,
    set_sizing p s = (inr tt, {| _bbox := _bbox s; _sizing := Some z |}) /\
    _bbox (snd (set_sizing p s)) = _bbox s /\
    BoxSizing.width_policy z =
      match PartialBoxSizing.width_policy p with
      | Some x => x | None => SizingPolicy.fit end /\
    BoxSizing.height_policy z =
      match PartialBoxSizing.height_policy p with
      | Some x => x | None => SizingPolicy.fit end /\
    BoxSizing.min_width z =
      match PartialBoxSizing.min_width p with
      | Some x => x | None => Number.zero end /\
    BoxSizing.min_height z =
      match PartialBoxSizing.min_height p with
      | Some x => x | None => Number.zero end /\
    BoxSizing.max_width z =
      match PartialBoxSizing.max_width p with
      | Some x => x | None => Number.Infinity end /\
    BoxSizing.max_height z =
      match PartialBoxSizing.max_height p with
      | Some x => x | None => Number.Infinity end /\
    BoxSizing.margin z =
      match PartialBoxSizing.margin p with
      | Some x => x
      | None => Margin.mk Number.zero Number.zero Number.zero Number.zero
      end /\
    BoxSizing.width z = PartialBoxSizing.width p /\
    BoxSizing.height z = PartialBoxSizing.height p /\
    BoxSizing.aspect z = PartialBoxSizing.aspect p.
Proof.
  intros Hinit p s.
  unfold set_sizing, bind, put_sizing. cbv beta iota zeta.
  rewrite Hinit. unfold Base._init, ret.
  eexists. split; [reflexivity|]. split; [reflexivity|].
  cbn. destruct p; cbn. repeat split.
Qed.

Lemma set_sizing_frame_witness :
  default_init LayoutItem /\
  exists z : BoxSizing,
    set_sizing (E := LayoutItem) PartialBoxSizing.empty
      (mkLayoutable (BBox_ltwh Number.zero Number.zero
                               (Number.of_Z 120) (Number.of_Z 40)) None)
    = (inr tt,
       mkLayoutable (BBox_ltwh Number.zero Number.zero
                               (Number.of_Z 120) (Number.of_Z 40)) (Some z)) /\
    BoxSizing.width_policy z = SizingPolicy.fit /\
    BoxSizing.max_width z = Number.Infinity.
Proof.
  assert (Hd : default_init LayoutItem) by (intros s; reflexivity).
  split; [exact Hd|].
  destruct (set_sizing_frame LayoutItem Hd PartialBoxSizing.empty
              (mkLayoutable (BBox_ltwh Number.zero Number.zero
                               (Number.of_Z 120) (Number.of_Z 40)) None))
    as (z & Hrun & _ & Hwp & _ & _ & _ & Hmax & _).
  exists z. repeat split; assumption.
Defined.

(** ** The commit step *)

(** C9: [compute] measures with every missing viewport dimension replaced
    by Infinity. When [measure] returns a size hint, the outer box is built
    at the origin from the hint's width and height; a hint with an inner
    margin [{left, top, right, bottom}] gives the inner box
    [{left, top, right: width - right, bottom: height - bottom}], a hint
    without one gives no inner box and the outer box stands in for it; the
    two boxes go to the placement hook. When [measure] throws, [compute]
    throws the same exception and the placement hook is not run. *)
Theorem compute_protocol (E : Element)
    (viewport : option PartialSize.t) (s : Layoutable) :
  let given_width :=
    match viewport with Some v => PartialSize.width v | None => None end in
  let given_height :=
    match viewport with Some v => PartialSize.height v | None => None end in
  let full : Size :=
    {| Size.width :=
         match given_width with Some w => w | None => Number.Infinity end;
       Size.height :=
         match given_height with Some h => h | None => Number.Infinity end |} in
  (forall (hint : SizeHint) (s' : Layoutable),
     measure full s = (inr hint, s') ->
     let width := SizeHint.width hint in
     let height := SizeHint.height hint in
     let outer := BBox_ltwh Number.zero Number.zero width height in
     compute viewport s =
       _set_geometry outer
         match SizeHint.inner hint with
         | Some m =>
             BBox_ltrb (Margin.left m) (Margin.top m)
                       (width - Margin.right m)%num
                       (height - Margin.bottom m)%num
         | None => outer
         end s') /\
  (forall (e : exn) (s' : Layoutable),
     measure full s = (inl e, s') -> compute viewport s = (inl e, s')).
Proof.
  cbv zeta.
  assert (Hfull :
    {| Size.width :=
         match viewport with
         | Some v => or_else (PartialSize.width v) Number.Infinity
         | None => Number.Infinity
         end;
       Size.height :=
         match viewport with
         | Some v => or_else (PartialSize.height v) Number.Infinity
         | None => Number.Infinity
         end |}
    = {| Size.width :=
           match match viewport with
                 | Some v => PartialSize.width v | None => None end with
           | Some w => w | None => Number.Infinity end;
         Size.height :=
           match match viewport with
                 | Some v => PartialSize.height v | None => None end with
           | Some h => h | None => Number.Infinity end |})
    by (destruct viewport as [[[w|] [h|]]|]; reflexivity).
  pose proof (compute_run viewport s) as Hrun. rewrite Hfull in Hrun.
  split.
  - intros hint s' Hm. rewrite Hrun, Hm. reflexivity.
  - intros e s' Hm. rewrite Hrun, Hm. reflexivity.
Qed.

(** C6: [compute] is idempotent. For every element with the default
    placement hook whose [_measure] hook is a query (it writes nothing and
    reads nothing of the element but its sizing), a second [compute(v)]
    with the same viewport has the same outcome as the first and leaves the
    bounding box the first one left; neither call touches the sizing. *)
Theorem compute_idempotent (E : Element) :
  default_set_geometry E ->
  (forall v, pure (_measure v)) ->
  forall (viewport : option PartialSize.t) (s : Layoutable),
    let s1 := snd (compute viewport s) in
    let s2 := snd (compute viewport s1) in
    _bbox s2 = _bbox s1 /\
    s2 = s1 /\
    _sizing s1 = _sizing s /\
    fst (compute viewport s1) = fst (compute viewport s).
Proof.
  intros Hgeo Hhook viewport s. cbv zeta.
  pose proof (compute_run viewport) as Hrun.
  set (full := {| Size.width := _; Size.height := _ |}) in Hrun.
  destruct (measure_pure full Hhook) as [Hpres Hread].
  pose proof (Hpres s) as Hs.
  rewrite (Hrun s).
  destruct (measure full s) as [[e|hint] t] eqn:Hm; simpl in Hs; subst t.
  - cbn [fst snd]. rewrite (Hrun s), Hm. cbn [fst snd]. auto.
  - rewrite Hgeo. unfold Base._set_geometry, put_bbox. cbn [fst snd].
    set (s1 := {| _bbox := _; _sizing := _sizing s |}).
    assert (Hm1 : measure full s1 = (inr hint, s1)).
    { pose proof (Hpres s1) as Hs1.
      pose proof (Hread s1 s eq_refl) as Hf. rewrite Hm in Hf. simpl in Hf.
      destruct (measure full s1) as [r t]. simpl in Hs1, Hf. subst. reflexivity. }
    rewrite (Hrun s1), Hm1, Hgeo.
    unfold Base._set_geometry, put_bbox. cbn [fst snd]. auto.
Qed.

Lemma compute_protocol_witness :
  let m := Margin.mk (Number.of_Z 1) (Number.of_Z 2)
                     (Number.of_Z 3) (Number.of_Z 4) in
  let s := snd (set_sizing (E := Scenario.Padded m)
                  PartialBoxSizing.empty new_Layoutable) in
  let v := Some (PartialSize.mk (Some (Number.of_Z 120)) (Some (Number.of_Z 40))) in
  measure (E := Scenario.Padded m) (Scenario.size 120 40) s
  = (inr (SizeHint.mk (Number.of_Z 120) (Number.of_Z 40) (Some m)), s) /\
  compute (E := Scenario.Padded m) v s
  = _set_geometry (Element := Scenario.Padded m)
      (BBox_ltwh Number.zero Number.zero (Number.of_Z 120) (Number.of_Z 40))
      (BBox_ltrb (Number.of_Z 1) (Number.of_Z 2)
                 (Number.of_Z 117) (Number.of_Z 36)) s /\
  measure (E := LayoutItem) Scenario.unbounded
    (Scenario.leaf PartialBoxSizing.empty)
  = (inr (SizeHint.mk Number.zero Number.zero None),
     Scenario.leaf PartialBoxSizing.empty) /\
  compute (E := LayoutItem) None (Scenario.leaf PartialBoxSizing.empty)
  = _set_geometry (Element := LayoutItem)
      (BBox_ltwh Number.zero Number.zero Number.zero Number.zero)
      (BBox_ltwh Number.zero Number.zero Number.zero Number.zero)
      (Scenario.leaf PartialBoxSizing.empty).
Proof.
  cbv zeta.
  set (m := Margin.mk (Number.of_Z 1) (Number.of_Z 2)
                      (Number.of_Z 3) (Number.of_Z 4)).
  set (s := snd (set_sizing (E := Scenario.Padded m)
                   PartialBoxSizing.empty new_Layoutable)).
  set (v := Some (PartialSize.mk (Some (Number.of_Z 120)) (Some (Number.of_Z 40)))).
  set (l := Scenario.leaf PartialBoxSizing.empty).
  split; [vm_compute; reflexivity|].
  split; [|split; [vm_compute; reflexivity|]].
  - etransitivity.
    + apply (proj1 (compute_protocol (Scenario.Padded m) v s)
               (SizeHint.mk (Number.of_Z 120) (Number.of_Z 40) (Some m)) s).
      vm_compute; reflexivity.
    + vm_compute; reflexivity.
  - etransitivity.
    + apply (proj1 (compute_protocol LayoutItem None l)
               (SizeHint.mk Number.zero Number.zero None) l).
      vm_compute; reflexivity.
    + vm_compute; reflexivity.
Defined.

Lemma compute_idempotent_witness :
  let v := Some (PartialSize.mk (Some (Number.of_Z 120)) (Some (Number.of_Z 40))) in
  let s := Scenario.leaf PartialBoxSizing.empty in
  default_set_geometry LayoutItem /\
  (forall v, pure (_measure (Element := LayoutItem) v)) /\
  _bbox (snd (compute (E := LayoutItem) v (snd (compute (E := LayoutItem) v s))))
  = _bbox (snd (compute (E := LayoutItem) v s)).
Proof.
  cbv zeta.
  assert (Hd : default_set_geometry LayoutItem) by (intros o i s; reflexivity).
  split; [exact Hd|]. split; [exact LayoutItem_measure_pure|].
  apply (compute_idempotent LayoutItem Hd LayoutItem_measure_pure).
Defined.

(** C8: the leaf with default sizing. After [set_sizing({})] on a new
    [LayoutItem] the configuration is: policies "fit", minima 0, maxima
    Infinity, zero margin, no aspect, no explicit width or height. There
    [measure({Infinity, Infinity})] returns [{0, 0}],
    [measure({120, 40})] returns [{120, 40}], neither with an inner
    margin, and [compute({120, 40})] passes no inner box to [set_geometry]
    and commits the bounding box [{left: 0, top: 0, width: 120,
    height: 40}]. *)
Theorem leaf_default_sizing :
  let s := Scenario.leaf PartialBoxSizing.empty in
  let v := Some (PartialSize.mk (Some (Number.of_Z 120)) (Some (Number.of_Z 40))) in
  let outer := BBox_ltwh Number.zero Number.zero (Number.of_Z 120) (Number.of_Z 40) in
  _sizing s =
    Some {| BoxSizing.width_policy := SizingPolicy.fit;
            BoxSizing.min_width := Number.zero;
            BoxSizing.width := None;
            BoxSizing.max_width := Number.Infinity;
            BoxSizing.height_policy := SizingPolicy.fit;
            BoxSizing.min_height := Number.zero;
            BoxSizing.height := None;
            BoxSizing.max_height := Number.Infinity;
            BoxSizing.aspect := None;
            BoxSizing.margin :=
              Margin.mk Number.zero Number.zero Number.zero Number.zero |} /\
  measure Scenario.unbounded s
  = (inr (SizeHint.mk Number.zero Number.zero None), s) /\
  measure (Scenario.size 120 40) s
  = (inr (SizeHint.mk (Number.of_Z 120) (Number.of_Z 40) None), s) /\
  compute v s = set_geometry outer None s /\
  compute v s = (inr tt, {| _bbox := outer; _sizing := _sizing s |}).
Proof. cbv zeta. repeat split; vm_compute; reflexivity. Qed.

(** ** Aspect reconciliation *)

(** C2: with an aspect ratio [r] and both policies other than "fixed",
    [apply_aspect] returns candidate A [{width, width / r}] when its L1
    distance to the viewport is [<=] that of candidate B
    [{height * r, height}], and candidate B otherwise: the candidate with
    the strictly smaller distance wins, and A wins an exact tie. *)
Theorem apply_aspect_selects_nearest
    (s : Layoutable) (z : BoxSizing) (r : number) (viewport size : Size) :
  _sizing s = Some z ->
  BoxSizing.aspect z = Some r ->
  BoxSizing.width_policy z <> SizingPolicy.fixed ->
  BoxSizing.height_policy z <> SizingPolicy.fixed ->
  let A := {| Size.width := Size.width size;
              Size.height := (Size.width size / r)%num |} in
  let B := {| Size.width := (Size.height size * r)%num;
              Size.height := Size.height size |} in
  let distance (c : Size) :=
    (Math.abs (Size.width viewport - Size.width c)
     + Math.abs (Size.height viewport - Size.height c))%num in
  apply_aspect viewport size s
  = (inr (if (distance A <=? distance B)%num then A else B), s) /\
  ((distance A <? distance B)%num = true ->
   apply_aspect viewport size s = (inr A, s)) /\
  ((distance B <? distance A)%num = true ->
   apply_aspect viewport size s = (inr B, s)) /\
  ((distance A =? distance B)%num = true ->
   apply_aspect viewport size s = (inr A, s)).
Proof.
  intros Hz Ha Hw Hh A B distance.
  pose proof (apply_aspect_free s z Hz r viewport size Ha Hw Hh) as Hrun.
  change (apply_aspect viewport size s
          = (inr (if (distance A <=? distance B)%num then A else B), s)) in Hrun.
  split; [exact Hrun|]. rewrite Hrun. repeat split; intros Hc.
  - rewrite (NumberOrderFacts.ltb_leb _ _ Hc). reflexivity.
  - rewrite (NumberOrderFacts.gtb_not_leb _ _ Hc). reflexivity.
  - rewrite (NumberOrderFacts.eqb_leb _ _ Hc). reflexivity.
Qed.

Lemma apply_aspect_selects_nearest_witness :
  let s := Scenario.leaf Scenario.free_aspect in
  let viewport := Scenario.size 100 100 in
  let size := Scenario.size 80 80 in
  (Math.abs (Number.of_Z 100 - Number.of_Z 80)
   + Math.abs (Number.of_Z 100 - Number.of_Z 80 / Number.of_Z 2))%num
  = Number.of_Z 80 /\
  (Math.abs (Number.of_Z 100 - Number.of_Z 80 * Number.of_Z 2)
   + Math.abs (Number.of_Z 100 - Number.of_Z 80))%num
  = Number.of_Z 80 /\
  apply_aspect viewport size s
  = (inr (Scenario.size 80 40), s).
Proof.
  cbv zeta.
  split; [vm_compute; reflexivity|]. split; [vm_compute; reflexivity|].
  refine (proj2 (proj2 (proj2
    (apply_aspect_selects_nearest
       (Scenario.leaf Scenario.free_aspect)
       (BoxSizing.mk SizingPolicy.fit Number.zero None Number.Infinity
                     SizingPolicy.fit Number.zero None Number.Infinity
                     (Some (Number.of_Z 2))
                     (Margin.mk Number.zero Number.zero Number.zero Number.zero))
       (Number.of_Z 2) (Scenario.size 100 100) (Scenario.size 80 80)
       _ _ _ _))) _).
  - vm_compute; reflexivity.
  - reflexivity.
  - discriminate.
  - discriminate.
  - vm_compute; reflexivity.
Defined.

(** C3: with an aspect ratio and both policies "fixed", [apply_aspect]
    throws [Error("unrechable")] and leaves the element as it was; then
    [measure] and [compute] throw as well and return nothing, for every
    [_measure] hook that does not replace the sizing. With an aspect ratio
    and at least one policy other than "fixed", [apply_aspect] returns a
    size. Without an aspect ratio it returns the candidate size as it
    is. *)
Theorem apply_aspect_both_fixed (E : Element) (s : Layoutable) (z : BoxSizing) :
  _sizing s = Some z ->
  (forall r, BoxSizing.aspect z = Some r ->
     (BoxSizing.width_policy z = SizingPolicy.fixed ->
      BoxSizing.height_policy z = SizingPolicy.fixed ->
      (forall viewport size,
         apply_aspect viewport size s = (inl (Error "unrechable"), s)) /\
      ((forall v t, _sizing (snd (_measure v t)) = _sizing t) ->
       (forall viewport, exists e s', measure viewport s = (inl e, s')) /\
       (forall viewport, exists e s', compute viewport s = (inl e, s')))) /\
     (~ (BoxSizing.width_policy z = SizingPolicy.fixed /\
         BoxSizing.height_policy z = SizingPolicy.fixed) ->
      forall viewport size,
        exists size', apply_aspect viewport size s = (inr size', s))) /\
  (BoxSizing.aspect z = None ->
   forall viewport size, apply_aspect viewport size s = (inr size, s)).
Proof.
  intros Hz. split; [intros r Ha; split|].
  - intros Hw Hh. split.
    + intros viewport size. apply (apply_aspect_unreachable s z Hz r); assumption.
    + intros Hhook.
      assert (Hm : forall viewport, exists e s', measure viewport s = (inl e, s')).
      { intros viewport. rewrite (measure_run s z Hz viewport). cbv zeta.
        match goal with
        | |- context [_measure ?w s] =>
            pose proof (Hhook w s) as Hs; destruct (_measure w s) as [[e|computed] s']
        end; [eauto|].
        simpl in Hs. rewrite Hs, Hz in *.
        rewrite (apply_aspect_unreachable s' z Hs r _ _ Ha Hw Hh). eauto. }
      split; [exact Hm|].
      intros viewport. rewrite (compute_run viewport s).
      match goal with
      | |- context [measure ?f s] => destruct (Hm f) as (e & s' & He)
      end.
      rewrite He. eauto.
  - intros Hnot viewport size.
    destruct (SizingPolicy.neqb (BoxSizing.width_policy z) SizingPolicy.fixed) eqn:Hw;
      destruct (SizingPolicy.neqb (BoxSizing.height_policy z) SizingPolicy.fixed) eqn:Hh.
    + apply neqb_fixed in Hw, Hh.
      rewrite (apply_aspect_free s z Hz r viewport size Ha Hw Hh). eauto.
    + apply neqb_fixed in Hw. apply neqb_fixed_false in Hh.
      rewrite (apply_aspect_height_fixed s z Hz r viewport size Ha Hw Hh). eauto.
    + apply neqb_fixed_false in Hw. apply neqb_fixed in Hh.
      rewrite (apply_aspect_width_fixed s z Hz r viewport size Ha Hw Hh). eauto.
    + apply neqb_fixed_false in Hw, Hh. destruct Hnot. auto.
  - intros Ha viewport size. apply (apply_aspect_none s z Hz). exact Ha.
Qed.

Lemma apply_aspect_both_fixed_witness :
  let s := Scenario.leaf Scenario.both_fixed in
  let free := Scenario.leaf Scenario.free_aspect in
  let plain := Scenario.leaf PartialBoxSizing.empty in
  apply_aspect (Scenario.size 100 100) (Scenario.size 50 50) s
  = (inl (Error "unrechable"), s) /\
  (exists e s', measure (E := LayoutItem) (Scenario.size 100 100) s = (inl e, s')) /\
  (exists e s', compute (E := LayoutItem) None s = (inl e, s')) /\
  (exists size',
     apply_aspect (Scenario.size 100 100) (Scenario.size 80 80) free
     = (inr size', free)) /\
  apply_aspect (Scenario.size 100 100) (Scenario.size 80 80) plain
  = (inr (Scenario.size 80 80), plain).
Proof.
  cbv zeta.
  pose proof (apply_aspect_both_fixed LayoutItem
                (Scenario.leaf Scenario.both_fixed) _ eq_refl) as [Hfixed _].
  pose proof (apply_aspect_both_fixed LayoutItem
                (Scenario.leaf Scenario.free_aspect) _ eq_refl) as [Hfree _].
  pose proof (apply_aspect_both_fixed LayoutItem
                (Scenario.leaf PartialBoxSizing.empty) _ eq_refl) as [_ Hplain].
  destruct (Hfixed _ eq_refl) as [Hthrow _].
  destruct (Hthrow eq_refl eq_refl) as [Ha Hmc].
  destruct (Hmc (fun v t => eq_refl)) as [Hm Hc].
  destruct (Hfree _ eq_refl) as [_ Hret].
  split; [apply Ha|]. split; [apply Hm|]. split; [apply Hc|].
  split; [apply Hret; intros [Hw _]; discriminate Hw|].
  apply Hplain. reflexivity.
Defined.

(** C1: what the code does on an element with an aspect ratio and a fixed
    width. On a [LayoutItem] configured with
    [{aspect: 2, width_policy: "fixed", width: 50}], [measure] of the
    viewport [{100, 100}] measures [{50, 100}] before the aspect step, and
    [apply_aspect] takes its third branch, [width = height * aspect]: the
    result is [{200, 100}], the fixed width is overwritten from the free
    height. On the unbounded viewport the result is [{0, 0}]; a viewport
    of height 25 gives [{50, 25}]. *)
Theorem fixed_width_is_overwritten :
  let s := Scenario.leaf Scenario.fixed_width in
  _sizing s =
    Some {| BoxSizing.width_policy := SizingPolicy.fixed;
            BoxSizing.min_width := Number.zero;
            BoxSizing.width := Some (Number.of_Z 50);
            BoxSizing.max_width := Number.Infinity;
            BoxSizing.height_policy := SizingPolicy.fit;
            BoxSizing.min_height := Number.zero;
            BoxSizing.height := None;
            BoxSizing.max_height := Number.Infinity;
            BoxSizing.aspect := Some (Number.of_Z 2);
            BoxSizing.margin :=
              Margin.mk Number.zero Number.zero Number.zero Number.zero |} /\
  apply_aspect (Scenario.size 50 100) (Scenario.size 50 100) s
  = (inr (Scenario.size 200 100), s) /\
  measure (Scenario.size 100 100) s
  = (inr (SizeHint.mk (Number.of_Z 200) (Number.of_Z 100) None), s) /\
  measure Scenario.unbounded s
  = (inr (SizeHint.mk Number.zero Number.zero None), s) /\
  measure (Scenario.size 100 25) s
  = (inr (SizeHint.mk (Number.of_Z 50) (Number.of_Z 25) None), s).
Proof. cbv zeta. repeat split; vm_compute; reflexivity. Qed.

(** The same slip on the other axis: with
    [{aspect: 2, height_policy: "fixed", height: 50}] and the viewport
    [{80, 100}] the second branch, [height = width / aspect], overwrites
    the fixed height 50 with 40. *)
Lemma fixed_height_is_overwritten :
  let s := Scenario.leaf Scenario.fixed_height in
  measure (Scenario.size 80 100) s
  = (inr (SizeHint.mk (Number.of_Z 80) (Number.of_Z 40) None), s).
Proof. vm_compute; reflexivity. Qed.

(** ** The measurement protocol *)

(** C4: [measure] on an element whose sizing is set. The viewport is
    clipped per axis by [clip_size]; on each axis whose policy is "fixed"
    and whose explicit value is present, the clipped dimension is replaced
    by that value; the hook [_measure] is called on the result. If the hook
    throws, so does [measure]. If it returns, leaving the sizing in place,
    the dimension that goes into the aspect step is, per axis, the explicit
    value when the policy is "fixed" and the value is present, and the
    hook's measured value otherwise; [measure] returns what [apply_aspect]
    makes of that size (the size itself when no aspect is configured)
    together with the hook's inner margin, or throws what [apply_aspect]
    throws. *)
Theorem measure_protocol (E : Element)
    (s : Layoutable) (z : BoxSizing) (viewport : Size) :
  _sizing s = Some z ->
  let clipped_width :=
    Math.max (BoxSizing.min_width z)
             (Math.min (Size.width viewport) (BoxSizing.max_width z)) in
  let clipped_height :=
    Math.max (BoxSizing.min_height z)
             (Math.min (Size.height viewport) (BoxSizing.max_height z)) in
  let explicit_width :=
    match BoxSizing.width_policy z with
    | SizingPolicy.fixed => BoxSizing.width z
    | _ => None
    end in
  let explicit_height :=
    match BoxSizing.height_policy z with
    | SizingPolicy.fixed => BoxSizing.height z
    | _ => None
    end in
  let working :=
    {| Size.width :=
         match explicit_width with Some w => w | None => clipped_width end;
       Size.height :=
         match explicit_height with Some h => h | None => clipped_height end |} in
  clip_size viewport s
  = (inr {| Size.width := clipped_width; Size.height := clipped_height |}, s) /\
  (forall e s', _measure working s = (inl e, s') ->
                measure viewport s = (inl e, s')) /\
  (forall computed s',
     _measure working s = (inr computed, s') ->
     _sizing s' = Some z ->
     let width :=
       match explicit_width with
       | Some w => w | None => SizeHint.width computed end in
     let height :=
       match explicit_height with
       | Some h => h | None => SizeHint.height computed end in
     let final := {| Size.width := width; Size.height := height |} in
     (forall size s'',
        apply_aspect working final s' = (inr size, s'') ->
        measure viewport s
        = (inr {| SizeHint.width := Size.width size;
                  SizeHint.height := Size.height size;
                  SizeHint.inner := SizeHint.inner computed |}, s'')) /\
     (forall e s'',
        apply_aspect working final s' = (inl e, s'') ->
        measure viewport s = (inl e, s'')) /\
     (BoxSizing.aspect z = None ->
      measure viewport s
      = (inr {| SizeHint.width := width;
                SizeHint.height := height;
                SizeHint.inner := SizeHint.inner computed |}, s'))).
Proof.
  intros Hz. cbv zeta.
  pose proof (measure_run s z Hz viewport) as Hrun. cbv zeta in Hrun.
  match type of Hrun with
  | context [_measure ?w s] =>
      match goal with
      | |- context [_measure ?w' s] =>
          replace w' with w
            by (destruct (BoxSizing.width_policy z), (BoxSizing.height_policy z),
                  (BoxSizing.width z), (BoxSizing.height z); reflexivity)
      end
  end.
  split; [apply (clip_size_run s z Hz)|]. split.
  - intros e s' Hhook. rewrite Hrun, Hhook. reflexivity.
  - intros computed s' Hhook Hz'. rewrite Hhook, Hz' in Hrun.
    match type of Hrun with
    | context [apply_aspect _ ?f s'] =>
        match goal with
        | |- context [apply_aspect _ ?f' s'] =>
            replace f' with f
              by (destruct (BoxSizing.width_policy z), (BoxSizing.height_policy z),
                    (BoxSizing.width z), (BoxSizing.height z); reflexivity)
        end
    end.
    split; [|split].
    + intros size s'' Ha. rewrite Hrun, Ha. reflexivity.
    + intros e s'' Ha. rewrite Hrun, Ha. reflexivity.
    + intros Hnone. rewrite (apply_aspect_none s' z Hz' _ _ Hnone) in Hrun.
      rewrite Hrun. cbn [Size.width Size.height].
      destruct (BoxSizing.width_policy z), (BoxSizing.height_policy z),
        (BoxSizing.width z), (BoxSizing.height z); reflexivity.
Qed.

Lemma measure_protocol_witness :
  let s := Scenario.leaf Scenario.fixed_width_only in
  clip_size (Scenario.size 100 100) s = (inr (Scenario.size 100 100), s) /\
  _measure (Element := LayoutItem) (Scenario.size 50 100) s
  = (inr (SizeHint.mk (Number.of_Z 50) (Number.of_Z 100) None), s) /\
  measure (E := LayoutItem) (Scenario.size 100 100) s
  = (inr (SizeHint.mk (Number.of_Z 50) (Number.of_Z 100) None), s).
Proof.
  cbv zeta.
  destruct (measure_protocol LayoutItem
              (Scenario.leaf Scenario.fixed_width_only) _
              (Scenario.size 100 100) eq_refl) as (Hclip & _ & Hret).
  split; [|split].
  - etransitivity; [exact Hclip | vm_compute; reflexivity].
  - vm_compute; reflexivity.
  - destruct (Hret (SizeHint.mk (Number.of_Z 50) (Number.of_Z 100) None)
                   (Scenario.leaf Scenario.fixed_width_only))
      as (_ & _ & Hnone).
    + vm_compute; reflexivity.
    + reflexivity.
    + etransitivity; [exact (Hnone eq_refl) | vm_compute; reflexivity].
Defined.

(** ** Clamping *)

(** C7, as the claim states it, fails on the code: the value 7 is above
    [max_width = 5], yet with [min_width = 10] [clip_width(7)] is 10, not
    the maximum. NaN is not bent into range either: with
    [max_width = NaN] the value 0, below [min_width = 1], is clipped to
    NaN, and with [min_width = 1 > max_width = 0] the value NaN is clipped
    to NaN, not to the minimum. *)
Lemma clip_above_max_is_not_max :
  let inverted := Scenario.leaf (Scenario.clamps (Number.of_Z 10) (Number.of_Z 5)) in
  let no_max := Scenario.leaf (Scenario.clamps (Number.of_Z 1) Number.NaN) in
  let crossed := Scenario.leaf (Scenario.clamps (Number.of_Z 1) (Number.of_Z 0)) in
  ((Number.of_Z 7 >? Number.of_Z 5)%num = true /\
   clip_width (Number.of_Z 7) inverted = (inr (Number.of_Z 10), inverted) /\
   (Number.of_Z 10 =? Number.of_Z 5)%num = false) /\
  ((Number.of_Z 0 <? Number.of_Z 1)%num = true /\
   clip_width (Number.of_Z 0) no_max = (inr Number.NaN, no_max) /\
   (Number.NaN =? Number.of_Z 1)%num = false) /\
  ((Number.of_Z 1 >? Number.of_Z 0)%num = true /\
   clip_width Number.NaN crossed = (inr Number.NaN, crossed) /\
   (Number.NaN =? Number.of_Z 1)%num = false).
Proof. cbv zeta. repeat split; vm_compute; reflexivity. Qed.

(** C7, amended: on an element whose sizing is set, [clip_width(v)] and
    [clip_height(v)] return [max(min, min(v, max))] and write nothing.
    For [min <= v <= max] the result is [==] to [v] (and is [v] itself
    unless [v] is a zero); for [v < min] and a [max] that is not NaN it is
    [min]; for [v > max] and [min <= max] it is [==] to [max] (and is
    [max] itself unless [max] is a zero); for [min > max] and a [v] that is
    not NaN it is [min]. [clip_size] applies the two per axis. *)
Theorem clip_clamps (s : Layoutable) (z : BoxSizing) :
  _sizing s = Some z ->
  (forall v, exists c,
     clip_width v s = (inr c, s) /\
     c = Math.max (BoxSizing.min_width z) (Math.min v (BoxSizing.max_width z)) /\
     clamp_cases (BoxSizing.min_width z) (BoxSizing.max_width z) v c) /\
  (forall v, exists c,
     clip_height v s = (inr c, s) /\
     c = Math.max (BoxSizing.min_height z) (Math.min v (BoxSizing.max_height z)) /\
     clamp_cases (BoxSizing.min_height z) (BoxSizing.max_height z) v c) /\
  (forall size, exists w h,
     clip_width (Size.width size) s = (inr w, s) /\
     clip_height (Size.height size) s = (inr h, s) /\
     clip_size size s = (inr {| Size.width := w; Size.height := h |}, s)).
Proof.
  intros Hz.
  assert (Hcases : forall lo hi v,
            clamp_cases lo hi v (Math.max lo (Math.min v hi))).
  { intros lo hi v. unfold clamp_cases. repeat apply conj.
    - apply NumberOrderFacts.clamp_inside.
    - apply NumberOrderFacts.clamp_below.
    - apply NumberOrderFacts.clamp_above.
    - apply NumberOrderFacts.clamp_inverted. }
  split; [|split].
  - intros v. eexists. split; [apply (clip_width_run s z Hz)|].
    split; [reflexivity | apply Hcases].
  - intros v. eexists. split; [apply (clip_height_run s z Hz)|].
    split; [reflexivity | apply Hcases].
  - intros size. do 2 eexists.
    split; [apply (clip_width_run s z Hz)|].
    split; [apply (clip_height_run s z Hz)|].
    apply (clip_size_run s z Hz).
Qed.

Lemma clip_clamps_witness :
  let s := Scenario.leaf (Scenario.clamps (Number.of_Z 10) (Number.of_Z 20)) in
  let inverted := Scenario.leaf (Scenario.clamps (Number.of_Z 10) (Number.of_Z 5)) in
  clip_width (Number.of_Z 15) s = (inr (Number.of_Z 15), s) /\
  clip_width (Number.of_Z 10) s = (inr (Number.of_Z 10), s) /\
  clip_width (Number.of_Z 20) s = (inr (Number.of_Z 20), s) /\
  clip_width (Number.of_Z 5) s = (inr (Number.of_Z 10), s) /\
  clip_height (Number.of_Z 25) s = (inr (Number.of_Z 20), s) /\
  clip_width (Number.of_Z 7) inverted = (inr (Number.of_Z 10), inverted).
Proof.
  cbv zeta.
  destruct (clip_clamps
              (Scenario.leaf (Scenario.clamps (Number.of_Z 10) (Number.of_Z 20)))
              _ eq_refl) as (Hw & Hh & _).
  destruct (clip_clamps
              (Scenario.leaf (Scenario.clamps (Number.of_Z 10) (Number.of_Z 5)))
              _ eq_refl) as (Hi & _ & _).
  repeat apply conj.
  - destruct (Hw (Number.of_Z 15)) as (c & Hrun & _ & Hin & _).
    rewrite Hrun. f_equal. f_equal.
    apply Hin; vm_compute; reflexivity.
  - destruct (Hw (Number.of_Z 10)) as (c & Hrun & _ & Hin & _).
    rewrite Hrun. f_equal. f_equal.
    apply Hin; vm_compute; reflexivity.
  - destruct (Hw (Number.of_Z 20)) as (c & Hrun & _ & Hin & _).
    rewrite Hrun. f_equal. f_equal.
    apply Hin; vm_compute; reflexivity.
  - destruct (Hw (Number.of_Z 5)) as (c & Hrun & _ & _ & Hbelow & _).
    rewrite Hrun. f_equal. f_equal.
    apply Hbelow; vm_compute; reflexivity.
  - destruct (Hh (Number.of_Z 25)) as (c & Hrun & _ & _ & _ & Habove & _).
    rewrite Hrun. f_equal. f_equal.
    apply Habove; vm_compute; reflexivity.
  - destruct (Hi (Number.of_Z 7)) as (c & Hrun & _ & _ & _ & _ & Hinv).
    rewrite Hrun. f_equal. f_equal.
    apply Hinv; vm_compute; reflexivity.
Defined.

(** ** The clamp as a lattice operation *)

Module NumberRankFacts.

Import NumberOrder NumberRank NumberOrderFacts.

Lemma rank_inj (a b : number) : rank a = rank b -> a = b.
Proof.
  destruct a as [[|]|[|]| |[|] ma ea]; destruct b as [[|]|[|]| |[|] mb eb];
    simpl; intros H; try discriminate; try reflexivity;
    injection H as He Hm; f_equal; lia.
Qed.

Lemma rank_lt (a b : number) :
  real a -> real b ->
  (klt (rank a) (rank b) <->
   klt (key a) (key b) \/
   (Number.is_neg_zero a = true /\ Number.is_pos_zero b = true)).
Proof.
  unfold real.
  destruct a as [[|]|[|]| |[|] ma ea]; destruct b as [[|]|[|]| |[|] mb eb];
    simpl; intros Ha Hb; try discriminate;
    split; intros H; try tauto;
    try (left; exact H); try lia;
    try (destruct H as [H|[H1 H2]]; [first [exact H | lia] | discriminate]).
Qed.

(** [Math.max] is the greater and [Math.min] the lesser by rank. *)
Lemma max_rank (a b : number) :
  real a -> real b ->
  (klt (rank a) (rank b) /\ Math.max a b = b) \/
  (~ klt (rank a) (rank b) /\ Math.max a b = a).
Proof.
  intros Ha Hb. pose proof (rank_lt a b Ha Hb) as Hr.
  unfold Math.max. unfold real in Ha, Hb. rewrite Ha, Hb. cbn [orb].
  destruct (b >? a)%num eqn:Hgt.
  - apply gtb_spec in Hgt. cbn [orb]. left. split; [|reflexivity].
    apply Hr. left. tauto.
  - cbn [orb].
    destruct (Number.is_pos_zero b && Number.is_neg_zero a) eqn:Hz.
    + apply andb_prop in Hz. left. split; [|reflexivity].
      apply Hr. right. tauto.
    + right. split; [|reflexivity]. intros H. apply Hr in H.
      destruct H as [H|[H1 H2]].
      * assert (Ht : (b >? a)%num = true) by (apply gtb_spec; auto).
        congruence.
      * rewrite H1, H2 in Hz. discriminate.
Qed.

Lemma min_rank (a b : number) :
  real a -> real b ->
  (klt (rank b) (rank a) /\ Math.min a b = b) \/
  (~ klt (rank b) (rank a) /\ Math.min a b = a).
Proof.
  intros Ha Hb. pose proof (rank_lt b a Hb Ha) as Hr.
  unfold Math.min. unfold real in Ha, Hb. rewrite Ha, Hb. cbn [orb].
  destruct (b <? a)%num eqn:Hlt.
  - apply ltb_spec in Hlt. cbn [orb]. left. split; [|reflexivity].
    apply Hr. left. tauto.
  - cbn [orb].
    destruct (Number.is_neg_zero b && Number.is_pos_zero a) eqn:Hz.
    + apply andb_prop in Hz. left. split; [|reflexivity].
      apply Hr. right. tauto.
    + right. split; [|reflexivity]. intros H. apply Hr in H.
      destruct H as [H|[H1 H2]].
      * assert (Ht : (b <? a)%num = true) by (apply ltb_spec; auto).
        congruence.
      * rewrite H1, H2 in Hz. discriminate.
Qed.

Lemma real_max (a b : number) : real a -> real b -> real (Math.max a b).
Proof. intros Ha Hb. apply (max_key a b Ha Hb). Qed.

Lemma real_min (a b : number) : real a -> real b -> real (Math.min a b).
Proof. intros Ha Hb. apply (min_key a b Ha Hb). Qed.

(** Not less by rank: greater, or the same number. *)
Lemma rank_not_lt (a b : number) :
  ~ klt (rank a) (rank b) -> klt (rank b) (rank a) \/ a = b.
Proof.
  intros H. destruct (klt_total (rank a) (rank b)) as [Hlt|[Heq|Hgt]].
  - contradiction.
  - right. apply rank_inj. exact Heq.
  - left. exact Hgt.
Qed.

(** Closing a goal on ranks by linear arithmetic on their components. *)
Ltac rank_lia :=
  repeat match goal with
         | H : context [rank ?x] |- _ =>
             let p := fresh "p" in
             set (p := rank x) in *; clearbody p; destruct p as [[? ?] ?]
         | |- context [rank ?x] =>
             let p := fresh "p" in
             set (p := rank x) in *; clearbody p; destruct p as [[? ?] ?]
         end;
  unfold klt in *;
  first [ lia | exfalso; lia ].

(** NaN in, NaN out; no NaN in, none out. *)
Lemma clamp_nan (lo hi v : number) :
  Number.is_nan (Math.max lo (Math.min v hi)) = true <->
  Number.is_nan lo = true \/ Number.is_nan hi = true \/ Number.is_nan v = true.
Proof.
  split.
  - intros H.
    destruct (Number.is_nan lo) eqn:Hlo; [auto|].
    destruct (Number.is_nan hi) eqn:Hhi; [auto|].
    destruct (Number.is_nan v) eqn:Hv; [auto|].
    pose proof (real_max lo _ Hlo (real_min v hi Hv Hhi)) as Hr.
    unfold real in Hr. congruence.
  - intros [H|[H|H]].
    + rewrite max_nan; [reflexivity | left; exact H].
    + rewrite (min_nan v hi) by (right; exact H). rewrite max_nan; auto.
    + rewrite (min_nan v hi) by (left; exact H). rewrite max_nan; auto.
Qed.

Lemma clamp_idempotent (lo hi v : number) :
  Math.max lo (Math.min (Math.max lo (Math.min v hi)) hi)
  = Math.max lo (Math.min v hi).
Proof.
  destruct (Number.is_nan (Math.max lo (Math.min v hi))) eqn:Hn.
  - assert (Hc : Math.max lo (Math.min v hi) = Number.NaN)
      by (destruct (Math.max lo (Math.min v hi)); try discriminate; reflexivity).
    rewrite Hc.
    rewrite (min_nan Number.NaN hi) by (left; reflexivity).
    apply max_nan. right. reflexivity.
  - assert (Hlo : real lo /\ real hi /\ real v).
    { unfold real.
      destruct (Number.is_nan lo) eqn:H1;
        [rewrite (proj2 (clamp_nan lo hi v)) in Hn by auto; discriminate|].
      destruct (Number.is_nan hi) eqn:H2;
        [rewrite (proj2 (clamp_nan lo hi v)) in Hn by auto; discriminate|].
      destruct (Number.is_nan v) eqn:H3;
        [rewrite (proj2 (clamp_nan lo hi v)) in Hn by auto; discriminate|].
      auto. }
    destruct Hlo as (Hlo & Hhi & Hv).
    pose proof (real_min v hi Hv Hhi) as Hm.
    pose proof (real_max lo _ Hlo Hm) as Hc.
    destruct (min_rank v hi Hv Hhi) as [[L1 E1]|[L1 E1]];
      destruct (max_rank lo (Math.min v hi) Hlo Hm) as [[L2 E2]|[L2 E2]];
      rewrite E2 in *; rewrite E1 in *.
    + (* min = hi, max = hi *)
      destruct (min_rank hi hi Hhi Hhi) as [[L3 E3]|[L3 E3]];
        rewrite E3; exact E2.
    + (* min = hi, max = lo : lo above hi *)
      destruct (min_rank lo hi Hlo Hhi) as [[L3 E3]|[L3 E3]]; rewrite E3.
      * exact E2.
      * destruct (max_rank lo lo Hlo Hlo) as [[L4 E4]|[L4 E4]]; exact E4.
    + (* min = v, max = v *)
      destruct (min_rank v hi Hv Hhi) as [[L3 E3]|[L3 E3]]; rewrite E3.
      * contradiction.
      * exact E2.
    + (* min = v, max = lo *)
      destruct (min_rank lo hi Hlo Hhi) as [[L3 E3]|[L3 E3]]; rewrite E3.
      * destruct (max_rank lo hi Hlo Hhi) as [[L4 E4]|[L4 E4]]; rewrite E4.
        -- rank_lia.
        -- reflexivity.
      * destruct (max_rank lo lo Hlo Hlo) as [[L4 E4]|[L4 E4]]; exact E4.
Qed.

(** The clamp never goes below [lo]; it stays at or below [hi] when the
    range is not inverted. *)
Lemma clamp_range (lo hi v : number) :
  real lo -> real hi -> real v ->
  (lo <=? Math.max lo (Math.min v hi))%num = true /\
  ((lo <=? hi)%num = true ->
   (Math.max lo (Math.min v hi) <=? hi)%num = true).
Proof.
  intros Hlo Hhi Hv.
  destruct (min_key v hi Hv Hhi) as [Hm Hmin].
  destruct (max_key lo (Math.min v hi) Hlo Hm) as [Hc Hmax].
  split.
  - apply leb_spec. split; [exact Hlo|]. split; [exact Hc|].
    destruct Hmax as [[Hlt ->]|[Hn [->|[-> He]]]]; auto.
  - rewrite !leb_spec. intros (_ & _ & Hle).
    split; [exact Hc|]. split; [exact Hhi|].
    assert (Hmh : klt (key (Math.min v hi)) (key hi)
                  \/ key (Math.min v hi) = key hi).
    { destruct Hmin as [[_ ->]|[Hn [->|[-> He]]]]; auto.
      destruct (klt_total (key v) (key hi)) as [H|[H|H]]; auto. contradiction. }
    destruct Hmax as [[_ ->]|[_ [->|[-> _]]]]; auto.
Qed.

Lemma kle_trans (p q r : Z * Z * Z) : kle p q -> kle q r -> kle p r.
Proof.
  unfold kle. intros [H1|H1] [H2|H2]; subst; auto.
  left. exact (klt_trans _ _ _ H1 H2).
Qed.

Lemma kle_refl_eq (p q : Z * Z * Z) : p = q -> kle p q.
Proof. intros H. right. exact H. Qed.

(** [Math.min] is a greatest lower bound and [Math.max] a least upper
    bound on keys. *)
Lemma min_glb (a b : number) :
  real a -> real b ->
  kle (key (Math.min a b)) (key a) /\
  kle (key (Math.min a b)) (key b) /\
  (key (Math.min a b) = key a \/ key (Math.min a b) = key b).
Proof.
  intros Ha Hb. destruct (min_key a b Ha Hb) as [_ H]. unfold kle.
  destruct H as [[Hlt ->]|[Hn [->|[-> He]]]].
  - auto.
  - destruct (klt_total (key a) (key b)) as [H|[H|H]]; auto. contradiction.
  - rewrite He. auto.
Qed.

Lemma max_lub (a b : number) :
  real a -> real b ->
  kle (key a) (key (Math.max a b)) /\
  kle (key b) (key (Math.max a b)) /\
  (key (Math.max a b) = key a \/ key (Math.max a b) = key b).
Proof.
  intros Ha Hb. destruct (max_key a b Ha Hb) as [_ H]. unfold kle.
  destruct H as [[Hlt ->]|[Hn [->|[-> He]]]].
  - auto.
  - destruct (klt_total (key a) (key b)) as [H|[H|H]]; auto. contradiction.
  - rewrite He. auto.
Qed.

(** The clamp is monotone in the clamped value. *)
Lemma clamp_monotone (lo hi v w : number) :
  real lo -> real hi ->
  (v <=? w)%num = true ->
  (Math.max lo (Math.min v hi) <=? Math.max lo (Math.min w hi))%num = true.
Proof.
  intros Hlo Hhi. rewrite !leb_spec. intros (Hv & Hw & Hle).
  fold (kle (key v) (key w)) in Hle.
  pose proof (real_min v hi Hv Hhi) as Hm1.
  pose proof (real_min w hi Hw Hhi) as Hm2.
  split; [apply real_max; assumption|]. split; [apply real_max; assumption|].
  fold (kle (key (Math.max lo (Math.min v hi)))
            (key (Math.max lo (Math.min w hi)))).
  destruct (min_glb v hi Hv Hhi) as (A1 & A2 & _).
  destruct (min_glb w hi Hw Hhi) as (_ & _ & A3).
  assert (Hm : kle (key (Math.min v hi)) (key (Math.min w hi))).
  { destruct A3 as [-> | ->]; [exact (kle_trans _ _ _ A1 Hle) | exact A2]. }
  destruct (max_lub lo (Math.min v hi) Hlo Hm1) as (_ & _ & B3).
  destruct (max_lub lo (Math.min w hi) Hlo Hm2) as (B1 & B2 & _).
  destruct B3 as [-> | ->]; [exact B1 | exact (kle_trans _ _ _ Hm B2)].
Qed.

End NumberRankFacts.

(** ** Before [set_sizing] *)

(** X1: an element whose sizing was never set. Every method that reads the
    sizing throws a [TypeError] at its first read and leaves the element as
    it was: [measure] throws before it calls the [_measure] hook, and
    [compute] throws without running the placement hook, whatever the
    hooks are. *)
Theorem unset_sizing_throws (E : Element) (s : Layoutable) :
  _sizing s = None ->
  (forall viewport, measure viewport s = (inl TypeError, s)) /\
  (forall viewport, compute viewport s = (inl TypeError, s)) /\
  (forall viewport size, apply_aspect viewport size s = (inl TypeError, s)) /\
  (forall w, clip_width w s = (inl TypeError, s)) /\
  (forall h, clip_height h s = (inl TypeError, s)) /\
  (forall size, clip_size size s = (inl TypeError, s)) /\
  is_width_expanding s = (inl TypeError, s) /\
  is_height_expanding s = (inl TypeError, s).
Proof.
  intros Hs. pose proof (sizing_none s Hs) as Hread.
  assert (Hm : forall viewport, measure viewport s = (inl TypeError, s)).
  { intros viewport. unfold measure. cbv zeta. apply bind_inl. exact Hread. }
  split; [exact Hm|]. split.
  { intros viewport. rewrite compute_run. rewrite Hm. reflexivity. }
  split.
  { intros viewport size. unfold apply_aspect. cbv zeta.
    apply bind_inl. exact Hread. }
  assert (Hw : forall w, clip_width w s = (inl TypeError, s)).
  { intros w. unfold clip_width. apply bind_inl. exact Hread. }
  split; [exact Hw|]. split.
  { intros h. unfold clip_height. apply bind_inl. exact Hread. }
  split.
  { intros size. unfold clip_size. apply bind_inl. apply Hw. }
  split.
  - unfold is_width_expanding. apply bind_inl. exact Hread.
  - unfold is_height_expanding. apply bind_inl. exact Hread.
Qed.

Lemma unset_sizing_throws_witness :
  _sizing new_Layoutable = None /\
  measure (E := LayoutItem) (Scenario.size 120 40) new_Layoutable
  = (inl TypeError, new_Layoutable) /\
  compute (E := LayoutItem) None new_Layoutable
  = (inl TypeError, new_Layoutable).
Proof.
  destruct (unset_sizing_throws LayoutItem new_Layoutable eq_refl)
    as (Hm & Hc & _).
  split; [reflexivity|]. split; [apply Hm | apply Hc].
Defined.

(** ** More on clamping *)

(** X2: the clamp keeps its bounds. On an element whose sizing is set,
    when [min], [max] and the value are not NaN, [clip_width] returns a
    number that is at least [min_width], and at most [max_width] as soon
    as [min_width <= max_width]; the same holds for [clip_height], and
    [clip_size] returns the two together. *)
Theorem clip_within_bounds (s : Layoutable) (z : BoxSizing) (size : Size) :
  _sizing s = Some z ->
  exists w h,
    clip_width (Size.width size) s = (inr w, s) /\
    clip_height (Size.height size) s = (inr h, s) /\
    clip_size size s = (inr {| Size.width := w; Size.height := h |}, s) /\
    (Number.is_nan (BoxSizing.min_width z) = false ->
     Number.is_nan (BoxSizing.max_width z) = false ->
     Number.is_nan (Size.width size) = false ->
     (BoxSizing.min_width z <=? w)%num = true /\
     ((BoxSizing.min_width z <=? BoxSizing.max_width z)%num = true ->
      (w <=? BoxSizing.max_width z)%num = true)) /\
    (Number.is_nan (BoxSizing.min_height z) = false ->
     Number.is_nan (BoxSizing.max_height z) = false ->
     Number.is_nan (Size.height size) = false ->
     (BoxSizing.min_height z <=? h)%num = true /\
     ((BoxSizing.min_height z <=? BoxSizing.max_height z)%num = true ->
      (h <=? BoxSizing.max_height z)%num = true)).
Proof.
  intros Hz. do 2 eexists.
  split; [apply (clip_width_run s z Hz)|].
  split; [apply (clip_height_run s z Hz)|].
  split; [apply (clip_size_run s z Hz)|].
  split; intros Hlo Hhi Hv; apply NumberRankFacts.clamp_range; assumption.
Qed.

Lemma clip_within_bounds_witness :
  let s := Scenario.leaf (Scenario.clamps (Number.of_Z 10) (Number.of_Z 20)) in
  exists w h,
    clip_size (Scenario.size 25 5) s
    = (inr {| Size.width := w; Size.height := h |}, s) /\
    (Number.of_Z 10 <=? w)%num = true /\ (w <=? Number.of_Z 20)%num = true /\
    (Number.of_Z 10 <=? h)%num = true /\ (h <=? Number.of_Z 20)%num = true.
Proof.
  cbv zeta.
  destruct (clip_within_bounds
              (Scenario.leaf (Scenario.clamps (Number.of_Z 10) (Number.of_Z 20)))
              _ (Scenario.size 25 5) eq_refl)
    as (w & h & _ & _ & Hs & Hw & Hh).
  exists w, h. split; [exact Hs|].
  destruct (Hw eq_refl eq_refl eq_refl) as [Hw1 Hw2].
  destruct (Hh eq_refl eq_refl eq_refl) as [Hh1 Hh2].
  repeat split.
  - exact Hw1.
  - apply Hw2. vm_compute; reflexivity.
  - exact Hh1.
  - apply Hh2. vm_compute; reflexivity.
Defined.

(** X3: clipping is idempotent. Clipping a clipped size gives the clipped
    size back, bit for bit, for every sizing (inverted ranges and NaN
    included); on an element without sizing both sides throw. *)
Theorem clip_idempotent (s : Layoutable) :
  (forall w, (c <- clip_width w ;; clip_width c) s = clip_width w s) /\
  (forall h, (c <- clip_height h ;; clip_height c) s = clip_height h s) /\
  (forall size, (c <- clip_size size ;; clip_size c) s = clip_size size s).
Proof.
  destruct (_sizing s) as [z|] eqn:Hz.
  - split; [|split].
    + intros w. rewrite (bind_inr _ _ _ _ _ (clip_width_run s z Hz w)).
      rewrite !(clip_width_run s z Hz).
      rewrite NumberRankFacts.clamp_idempotent. reflexivity.
    + intros h. rewrite (bind_inr _ _ _ _ _ (clip_height_run s z Hz h)).
      rewrite !(clip_height_run s z Hz).
      rewrite NumberRankFacts.clamp_idempotent. reflexivity.
    + intros size. rewrite (bind_inr _ _ _ _ _ (clip_size_run s z Hz size)).
      rewrite !(clip_size_run s z Hz). cbn [Size.width Size.height].
      rewrite !NumberRankFacts.clamp_idempotent. reflexivity.
  - pose proof (sizing_none s Hz) as Hread.
    assert (Hw : forall w, clip_width w s = (inl TypeError, s))
      by (intros w; unfold clip_width; apply bind_inl; exact Hread).
    assert (Hh : forall h, clip_height h s = (inl TypeError, s))
      by (intros h; unfold clip_height; apply bind_inl; exact Hread).
    assert (Hsz : forall size, clip_size size s = (inl TypeError, s))
      by (intros size; unfold clip_size; apply bind_inl; apply Hw).
    split; [|split]; intros x.
    + rewrite (bind_inl _ _ _ _ _ (Hw x)). rewrite Hw. reflexivity.
    + rewrite (bind_inl _ _ _ _ _ (Hh x)). rewrite Hh. reflexivity.
    + rewrite (bind_inl _ _ _ _ _ (Hsz x)). rewrite Hsz. reflexivity.
Qed.

(** X4: clipping is monotone. On an element whose [min] and [max] are not
    NaN, a smaller-or-equal value is clipped to a smaller-or-equal
    result, on either axis, also when the range is inverted. *)
Theorem clip_monotone (s : Layoutable) (z : BoxSizing) (v w : number) :
  _sizing s = Some z ->
  (v <=? w)%num = true ->
  (Number.is_nan (BoxSizing.min_width z) = false ->
   Number.is_nan (BoxSizing.max_width z) = false ->
   exists c d,
     clip_width v s = (inr c, s) /\ clip_width w s = (inr d, s) /\
     (c <=? d)%num = true) /\
  (Number.is_nan (BoxSizing.min_height z) = false ->
   Number.is_nan (BoxSizing.max_height z) = false ->
   exists c d,
     clip_height v s = (inr c, s) /\ clip_height w s = (inr d, s) /\
     (c <=? d)%num = true).
Proof.
  intros Hz Hle. split; intros Hlo Hhi; do 2 eexists.
  - split; [apply (clip_width_run s z Hz)|].
    split; [apply (clip_width_run s z Hz)|].
    apply NumberRankFacts.clamp_monotone; assumption.
  - split; [apply (clip_height_run s z Hz)|].
    split; [apply (clip_height_run s z Hz)|].
    apply NumberRankFacts.clamp_monotone; assumption.
Qed.

Lemma clip_monotone_witness :
  let s := Scenario.leaf (Scenario.clamps (Number.of_Z 10) (Number.of_Z 20)) in
  (Number.of_Z 5 <=? Number.of_Z 15)%num = true /\
  exists c d,
    clip_width (Number.of_Z 5) s = (inr c, s) /\
    clip_width (Number.of_Z 15) s = (inr d, s) /\
    (c <=? d)%num = true.
Proof.
  cbv zeta.
  assert (Hle : (Number.of_Z 5 <=? Number.of_Z 15)%num = true)
    by (vm_compute; reflexivity).
  split; [exact Hle|].
  destruct (clip_monotone
              (Scenario.leaf (Scenario.clamps (Number.of_Z 10) (Number.of_Z 20)))
              _ (Number.of_Z 5) (Number.of_Z 15) eq_refl Hle) as [Hw _].
  exact (Hw eq_refl eq_refl).
Defined.

(** X5: NaN goes through the clamp and nothing else makes one. On an
    element whose sizing is set, [clip_width] returns NaN exactly when
    [min_width], [max_width] or the value is NaN; likewise
    [clip_height]. *)
Theorem clip_nan (s : Layoutable) (z : BoxSizing) (v : number) :
  _sizing s = Some z ->
  (exists c, clip_width v s = (inr c, s) /\
     (Number.is_nan c = true <->
      Number.is_nan (BoxSizing.min_width z) = true \/
      Number.is_nan (BoxSizing.max_width z) = true \/
      Number.is_nan v = true)) /\
  (exists c, clip_height v s = (inr c, s) /\
     (Number.is_nan c = true <->
      Number.is_nan (BoxSizing.min_height z) = true \/
      Number.is_nan (BoxSizing.max_height z) = true \/
      Number.is_nan v = true)).
Proof.
  intros Hz. split; eexists.
  - split; [apply (clip_width_run s z Hz)|]. apply NumberRankFacts.clamp_nan.
  - split; [apply (clip_height_run s z Hz)|]. apply NumberRankFacts.clamp_nan.
Qed.

Lemma clip_nan_witness :
  let s := Scenario.leaf (Scenario.clamps (Number.of_Z 10) (Number.of_Z 20)) in
  clip_width Number.NaN s = (inr Number.NaN, s) /\
  exists c, clip_width (Number.of_Z 15) s = (inr c, s) /\ Number.is_nan c = false.
Proof.
  cbv zeta.
  set (s := Scenario.leaf (Scenario.clamps (Number.of_Z 10) (Number.of_Z 20))).
  destruct (clip_nan s _ Number.NaN eq_refl) as [(c & Hrun & Hc) _].
  destruct (clip_nan s _ (Number.of_Z 15) eq_refl) as [(d & Hrund & Hd) _].
  split.
  - rewrite Hrun. f_equal. f_equal.
    assert (Hn : Number.is_nan c = true) by (apply Hc; right; right; reflexivity).
    destruct c; try discriminate. reflexivity.
  - exists d. split; [exact Hrund|].
    assert (Hnot : Number.is_nan d <> true).
    { intros Hnd. apply Hd in Hnd.
      destruct Hnd as [H|[H|H]]; vm_compute in H; discriminate H. }
    destruct (Number.is_nan d); [destruct Hnot; reflexivity | reflexivity].
Defined.

(** ** Configuration and placement together *)

(** [set_sizing] with the default [_init], run. *)
Lemma set_sizing_run (E : Element) (p : PartialBoxSizing.t) (s : Layoutable) :
  default_init E ->
  set_sizing p s
  = (inr tt,
     {| _bbox := _bbox s;
        _sizing :=
          Some {| BoxSizing.width_policy :=
                    or_else (PartialBoxSizing.width_policy p) SizingPolicy.fit;
                  BoxSizing.min_width :=
                    or_else (PartialBoxSizing.min_width p) Number.zero;
                  BoxSizing.width := PartialBoxSizing.width p;
                  BoxSizing.max_width :=
                    or_else (PartialBoxSizing.max_width p) Number.Infinity;
                  BoxSizing.height_policy :=
                    or_else (PartialBoxSizing.height_policy p) SizingPolicy.fit;
                  BoxSizing.min_height :=
                    or_else (PartialBoxSizing.min_height p) Number.zero;
                  BoxSizing.height := PartialBoxSizing.height p;
                  BoxSizing.max_height :=
                    or_else (PartialBoxSizing.max_height p) Number.Infinity;
                  BoxSizing.aspect := PartialBoxSizing.aspect p;
                  BoxSizing.margin :=
                    or_else (PartialBoxSizing.margin p)
                      (Margin.mk Number.zero Number.zero
                                 Number.zero Number.zero) |} |}).
Proof.
  intros Hinit. unfold set_sizing, bind, put_sizing. cbv beta iota zeta.
  rewrite Hinit. reflexivity.
Qed.

(** X6: [set_sizing] replaces the configuration wholesale. With the
    default [_init], the state after [set_sizing(q)] does not depend on
    what an earlier [set_sizing(p)] installed: no field of the old
    configuration survives. With the default placement hook as well,
    [set_sizing] and [set_geometry] commute: each writes its own field. *)
Theorem set_sizing_replaces (E : Element) :
  default_init E ->
  forall (p q : PartialBoxSizing.t) (s : Layoutable),
    snd (set_sizing q (snd (set_sizing p s))) = snd (set_sizing q s) /\
    (default_set_geometry E ->
     forall outer inner,
       snd (set_geometry outer inner (snd (set_sizing p s)))
       = snd (set_sizing p (snd (set_geometry outer inner s)))).
Proof.
  intros Hinit p q s.
  rewrite !(set_sizing_run E) by exact Hinit. split; [reflexivity|].
  intros Hgeo outer inner. unfold set_geometry. rewrite !Hgeo.
  unfold Base._set_geometry, put_bbox. cbn [snd].
  rewrite !(set_sizing_run E) by exact Hinit. reflexivity.
Qed.

Lemma set_sizing_replaces_witness :
  default_init LayoutItem /\
  snd (set_sizing (E := LayoutItem) PartialBoxSizing.empty
         (Scenario.leaf Scenario.both_fixed))
  = Scenario.leaf PartialBoxSizing.empty.
Proof.
  assert (Hd : default_init LayoutItem) by (intros s; reflexivity).
  split; [exact Hd|].
  exact (proj1 (set_sizing_replaces LayoutItem Hd Scenario.both_fixed
                  PartialBoxSizing.empty new_Layoutable)).
Defined.

(** X7: the expansion queries after [set_sizing]. With the default
    [_init], [is_width_expanding] and [is_height_expanding] return, write
    nothing, and answer true exactly when the policy given for their axis
    was "max"; an absent policy (it defaults to "fit") is not expanding. *)
Theorem expanding_after_set_sizing (E : Element) :
  default_init E ->
  forall (p : PartialBoxSizing.t) (s : Layoutable),
    let s' := snd (set_sizing p s) in
    is_width_expanding s'
    = (inr match PartialBoxSizing.width_policy p with
           | Some SizingPolicy.max => true
           | _ => false
           end, s') /\
    is_height_expanding s'
    = (inr match PartialBoxSizing.height_policy p with
           | Some SizingPolicy.max => true
           | _ => false
           end, s').
Proof.
  intros Hinit p s. cbv zeta.
  rewrite (set_sizing_run E p s Hinit). cbn [snd].
  unfold is_width_expanding, is_height_expanding, bind, sizing, ret.
  cbn [_sizing BoxSizing.width_policy BoxSizing.height_policy].
  destruct p as [[[| | |]|] ? ? ? [[| | |]|] ? ? ? ? ?]; split; reflexivity.
Qed.

Lemma expanding_after_set_sizing_witness :
  default_init LayoutItem /\
  is_width_expanding
    (Scenario.leaf (Scenario2.policies SizingPolicy.max SizingPolicy.min))
  = (inr true,
     Scenario.leaf (Scenario2.policies SizingPolicy.max SizingPolicy.min)) /\
  is_height_expanding
    (Scenario.leaf (Scenario2.policies SizingPolicy.max SizingPolicy.min))
  = (inr false,
     Scenario.leaf (Scenario2.policies SizingPolicy.max SizingPolicy.min)).
Proof.
  assert (Hd : default_init LayoutItem) by (intros s; reflexivity).
  split; [exact Hd|].
  exact (expanding_after_set_sizing LayoutItem Hd
           (Scenario2.policies SizingPolicy.max SizingPolicy.min)
           new_Layoutable).
Defined.

(** X8: [compute] commits all or nothing. For every element with the
    default placement hook whose [_measure] hook writes nothing: when
    [measure] throws, [compute] throws the same exception and the element
    is as it was; when [measure] returns a size hint, [compute] returns
    and the only change is the bounding box, now the box at the origin
    with the hint's width and height. The sizing is never changed. *)
Theorem compute_commits_or_nothing (E : Element) :
  default_set_geometry E ->
  (forall v, preserves_state (_measure v)) ->
  forall (viewport : option PartialSize.t) (s : Layoutable),
    let full : Size :=
      {| Size.width :=
           match viewport with
           | Some v => match PartialSize.width v with
                       | Some w => w | None => Number.Infinity end
           | None => Number.Infinity
           end;
         Size.height :=
           match viewport with
           | Some v => match PartialSize.height v with
                       | Some h => h | None => Number.Infinity end
           | None => Number.Infinity
           end |} in
    _sizing (snd (compute viewport s)) = _sizing s /\
    match fst (measure full s) with
    | inl e => compute viewport s = (inl e, s)
    | inr hint =>
        compute viewport s
        = (inr tt,
           {| _bbox := BBox_ltwh Number.zero Number.zero
                                 (SizeHint.width hint) (SizeHint.height hint);
              _sizing := _sizing s |})
    end.
Proof.
  intros Hgeo Hhook viewport s. cbv zeta.
  set (full := {| Size.width := _; Size.height := _ |}).
  assert (Hfull :
    {| Size.width :=
         match viewport with
         | Some v => or_else (PartialSize.width v) Number.Infinity
         | None => Number.Infinity
         end;
       Size.height :=
         match viewport with
         | Some v => or_else (PartialSize.height v) Number.Infinity
         | None => Number.Infinity
         end |} = full)
    by (destruct viewport as [[[w|] [h|]]|]; reflexivity).
  rewrite (compute_run viewport s), Hfull.
  pose proof (measure_preserves full Hhook s) as Hs.
  destruct (measure full s) as [[e|hint] t]; cbn [snd fst] in *; subst t.
  - split; reflexivity.
  - rewrite Hgeo. unfold Base._set_geometry, put_bbox. cbn [snd _sizing].
    split; reflexivity.
Qed.

Lemma compute_commits_or_nothing_witness :
  default_set_geometry LayoutItem /\
  (forall v, preserves_state (_measure (Element := LayoutItem) v)) /\
  compute (E := LayoutItem) None (Scenario.leaf Scenario.both_fixed)
  = (inl (Error "unrechable"), Scenario.leaf Scenario.both_fixed) /\
  compute (E := LayoutItem) None (Scenario.leaf Scenario2.fixed_box)
  = (inr tt,
     {| _bbox := BBox_ltwh Number.zero Number.zero
                           (Number.of_Z 50) (Number.of_Z 30);
        _sizing := _sizing (Scenario.leaf Scenario2.fixed_box) |}).
Proof.
  assert (Hd : default_set_geometry LayoutItem) by (intros o i s; reflexivity).
  assert (Hp : forall v, preserves_state (_measure (Element := LayoutItem) v))
    by (intros v; apply LayoutItem_measure_pure).
  split; [exact Hd|]. split; [exact Hp|]. split.
  - exact (proj2 (compute_commits_or_nothing LayoutItem Hd Hp None
                    (Scenario.leaf Scenario.both_fixed))).
  - exact (proj2 (compute_commits_or_nothing LayoutItem Hd Hp None
                    (Scenario.leaf Scenario2.fixed_box))).
Defined.

(** ** More on [measure] *)

(** X9: a fully fixed element does not look at the viewport. When both
    policies are "fixed" and both explicit values are present, [measure]
    hands the hook the viewport [{width, height}] of the explicit values
    whatever viewport it was given: two calls of [measure] (or of
    [compute]) on the same element with different viewports have the same
    outcome, for every hook. Without an aspect ratio, if the hook returns
    and leaves the sizing in place, the measured size is the explicit
    size, whatever the hook measured. *)
Theorem fixed_box_ignores_viewport (E : Element)
    (s : Layoutable) (z : BoxSizing) (w h : number) :
  _sizing s = Some z ->
  BoxSizing.width_policy z = SizingPolicy.fixed ->
  BoxSizing.height_policy z = SizingPolicy.fixed ->
  BoxSizing.width z = Some w ->
  BoxSizing.height z = Some h ->
  (forall v1 v2, measure v1 s = measure v2 s) /\
  (forall p1 p2, compute p1 s = compute p2 s) /\
  (BoxSizing.aspect z = None ->
   forall v computed s',
     _measure {| Size.width := w; Size.height := h |} s = (inr computed, s') ->
     _sizing s' = Some z ->
     measure v s
     = (inr {| SizeHint.width := w; SizeHint.height := h;
               SizeHint.inner := SizeHint.inner computed |}, s')).
Proof.
  intros Hz Hwp Hhp Hw Hh.
  assert (Hm : forall v,
            measure v s =
            match _measure {| Size.width := w; Size.height := h |} s with
            | (inl e, s') => (inl e, s')
            | (inr computed, s') =>
                match _sizing s' with
                | None => (inl TypeError, s')
                | Some z' =>
                    match apply_aspect {| Size.width := w; Size.height := h |}
                            {| Size.width :=
                                 or_else (BoxSizing.width z') (SizeHint.width computed);
                               Size.height :=
                                 or_else (BoxSizing.height z') (SizeHint.height computed) |}
                            s' with
                    | (inl e, s'') => (inl e, s'')
                    | (inr size, s'') =>
                        (inr {| SizeHint.width := Size.width size;
                                SizeHint.height := Size.height size;
                                SizeHint.inner := SizeHint.inner computed |}, s'')
                    end
                end
            end).
  { intros v. rewrite (measure_run s z Hz v). cbv zeta.
    rewrite Hwp, Hhp, Hw, Hh. reflexivity. }
  assert (Hv : forall v1 v2, measure v1 s = measure v2 s).
  { intros v1 v2. rewrite (Hm v1), (Hm v2). reflexivity. }
  split; [exact Hv|]. split.
  - intros p1 p2. rewrite (compute_run p1 s), (compute_run p2 s).
    match goal with
    | |- match measure ?a s with _ => _ end = match measure ?b s with _ => _ end =>
        rewrite (Hv a b)
    end.
    reflexivity.
  - intros Ha v computed s' Hhook Hz'. rewrite (Hm v), Hhook, Hz'.
    rewrite Hw, Hh. cbn [or_else].
    rewrite (apply_aspect_none s' z Hz' _ _ Ha). reflexivity.
Qed.

Lemma fixed_box_ignores_viewport_witness :
  let s := Scenario.leaf Scenario2.fixed_box in
  measure (E := LayoutItem) (Scenario.size 120 40) s
  = measure (E := LayoutItem) Scenario.unbounded s /\
  measure (E := LayoutItem) (Scenario.size 120 40) s
  = (inr (SizeHint.mk (Number.of_Z 50) (Number.of_Z 30) None), s).
Proof.
  cbv zeta.
  destruct (fixed_box_ignores_viewport LayoutItem
              (Scenario.leaf Scenario2.fixed_box) _
              (Number.of_Z 50) (Number.of_Z 30)
              eq_refl eq_refl eq_refl eq_refl eq_refl) as (Hv & _ & Hfix).
  split; [apply Hv|].
  apply (Hfix eq_refl (Scenario.size 120 40)
           (SizeHint.mk (Number.of_Z 50) (Number.of_Z 30) None)).
  - vm_compute; reflexivity.
  - reflexivity.
Defined.

(** X10: what [measure] makes of an aspect ratio when exactly one policy
    is "fixed". If the hook returns [computed] and leaves the sizing in
    place, then with the width fixed and the height free [measure]
    returns [{computed.height * r, computed.height}], and with the height
    fixed and the width free it returns
    [{computed.width, computed.width / r}]: the result is read off the
    free axis alone; the explicit value of the fixed axis only reaches the
    hook, through the viewport it is given. *)
Theorem measure_one_fixed (E : Element)
    (s : Layoutable) (z : BoxSizing) (r : number) (viewport : Size) :
  _sizing s = Some z ->
  BoxSizing.aspect z = Some r ->
  let clipped_width :=
    Math.max (BoxSizing.min_width z)
             (Math.min (Size.width viewport) (BoxSizing.max_width z)) in
  let clipped_height :=
    Math.max (BoxSizing.min_height z)
             (Math.min (Size.height viewport) (BoxSizing.max_height z)) in
  (BoxSizing.width_policy z = SizingPolicy.fixed ->
   BoxSizing.height_policy z <> SizingPolicy.fixed ->
   forall computed s',
     _measure {| Size.width :=
                   match BoxSizing.width z with
                   | Some w => w | None => clipped_width end;
                 Size.height := clipped_height |} s = (inr computed, s') ->
     _sizing s' = Some z ->
     measure viewport s
     = (inr {| SizeHint.width := (SizeHint.height computed * r)%num;
               SizeHint.height := SizeHint.height computed;
               SizeHint.inner := SizeHint.inner computed |}, s')) /\
  (BoxSizing.width_policy z <> SizingPolicy.fixed ->
   BoxSizing.height_policy z = SizingPolicy.fixed ->
   forall computed s',
     _measure {| Size.width := clipped_width;
                 Size.height :=
                   match BoxSizing.height z with
                   | Some h => h | None => clipped_height end |} s
     = (inr computed, s') ->
     _sizing s' = Some z ->
     measure viewport s
     = (inr {| SizeHint.width := SizeHint.width computed;
               SizeHint.height := (SizeHint.width computed / r)%num;
               SizeHint.inner := SizeHint.inner computed |}, s')).
Proof.
  intros Hz Ha. cbv zeta.
  pose proof (measure_run s z Hz viewport) as Hrun. cbv zeta in Hrun.
  split.
  - intros Hw Hh computed s' Hhook Hz'.
    apply neqb_fixed in Hh.
    assert (Hh' : SizingPolicy.eqb (BoxSizing.height_policy z) SizingPolicy.fixed
                  = false)
      by (unfold SizingPolicy.neqb in Hh; apply negb_true_iff in Hh; exact Hh).
    rewrite Hw, Hh' in Hrun. cbn [SizingPolicy.eqb Size.width Size.height] in Hrun.
    match type of Hrun with
    | context [_measure ?wk s] =>
        match type of Hhook with
        | _measure ?wk' s = _ =>
            replace wk with wk' in Hrun
              by (destruct (BoxSizing.width z), (BoxSizing.height z); reflexivity)
        end
    end.
    rewrite Hhook, Hz' in Hrun.
    apply neqb_fixed in Hh.
    rewrite (apply_aspect_width_fixed s' z Hz' r _ _ Ha Hw Hh) in Hrun.
    exact Hrun.
  - intros Hw Hh computed s' Hhook Hz'.
    apply neqb_fixed in Hw.
    assert (Hw' : SizingPolicy.eqb (BoxSizing.width_policy z) SizingPolicy.fixed
                  = false)
      by (unfold SizingPolicy.neqb in Hw; apply negb_true_iff in Hw; exact Hw).
    rewrite Hh, Hw' in Hrun. cbn [SizingPolicy.eqb Size.width Size.height] in Hrun.
    match type of Hrun with
    | context [_measure ?wk s] =>
        match type of Hhook with
        | _measure ?wk' s = _ =>
            replace wk with wk' in Hrun
              by (destruct (BoxSizing.width z), (BoxSizing.height z); reflexivity)
        end
    end.
    rewrite Hhook, Hz' in Hrun.
    apply neqb_fixed in Hw.
    rewrite (apply_aspect_height_fixed s' z Hz' r _ _ Ha Hw Hh) in Hrun.
    exact Hrun.
Qed.

Lemma measure_one_fixed_witness :
  measure (E := LayoutItem) (Scenario.size 100 100)
    (Scenario.leaf Scenario.fixed_width)
  = (inr (SizeHint.mk (Number.of_Z 200) (Number.of_Z 100) None),
     Scenario.leaf Scenario.fixed_width) /\
  measure (E := LayoutItem) (Scenario.size 80 100)
    (Scenario.leaf Scenario.fixed_height)
  = (inr (SizeHint.mk (Number.of_Z 80) (Number.of_Z 40) None),
     Scenario.leaf Scenario.fixed_height).
Proof.
  split.
  - destruct (measure_one_fixed LayoutItem (Scenario.leaf Scenario.fixed_width)
                _ (Number.of_Z 2) (Scenario.size 100 100) eq_refl eq_refl)
      as [Hw _].
    etransitivity.
    + apply (Hw eq_refl ltac:(discriminate)
               (SizeHint.mk (Number.of_Z 50) (Number.of_Z 100) None)
               (Scenario.leaf Scenario.fixed_width)).
      * vm_compute; reflexivity.
      * reflexivity.
    + vm_compute; reflexivity.
  - destruct (measure_one_fixed LayoutItem (Scenario.leaf Scenario.fixed_height)
                _ (Number.of_Z 2) (Scenario.size 80 100) eq_refl eq_refl)
      as [_ Hh].
    etransitivity.
    + apply (Hh ltac:(discriminate) eq_refl
               (SizeHint.mk (Number.of_Z 80) (Number.of_Z 50) None)
               (Scenario.leaf Scenario.fixed_height)).
      * vm_compute; reflexivity.
      * reflexivity.
    + vm_compute; reflexivity.
Defined.

(** ** More on the leaf *)

Lemma eqb_Infinity (x : number) :
  (x =? Number.Infinity)%num = true <-> x = Number.Infinity.
Proof.
  split.
  - destruct x as [[|]|[|]| |[|] m e]; cbn; intros H; try discriminate; reflexivity.
  - intros ->. reflexivity.
Qed.

(** What [LayoutItem._measure] returns on a viewport. *)
Lemma LayoutItem_measure_run (viewport : Size) (s : Layoutable) :
  _measure (Element := LayoutItem) viewport s
  = (inr {| SizeHint.width :=
              if negb (Size.width viewport =? Number.Infinity)%num
              then Size.width viewport else Number.zero;
            SizeHint.height :=
              if negb (Size.height viewport =? Number.Infinity)%num
              then Size.height viewport else Number.zero;
            SizeHint.inner := None |}, s).
Proof. reflexivity. Qed.

Lemma finite_or_zero (x : number) :
  (if negb (x =? Number.Infinity)%num then x else Number.zero) <> Number.Infinity /\
  ((if negb (x =? Number.Infinity)%num then x else Number.zero) = x \/
   (x = Number.Infinity /\
    (if negb (x =? Number.Infinity)%num then x else Number.zero) = Number.zero)).
Proof.
  destruct (x =? Number.Infinity)%num eqn:Hx; cbn [negb].
  - apply eqb_Infinity in Hx. split; [discriminate|]. right. auto.
  - split; [|left; reflexivity].
    intros H. apply eqb_Infinity in H. congruence.
Qed.

(** X11: the leaf never reports an unbounded size and never an inner
    margin. On a [LayoutItem] without an aspect ratio, [measure] always
    returns and writes nothing. On an axis that is fixed with an explicit
    value the measured dimension is that value; on every other axis it is
    the clipped viewport dimension, except that a clipped dimension of
    [Infinity] is reported as 0: the result is never [Infinity] there. *)
Theorem leaf_measure_is_bounded (s : Layoutable) (z : BoxSizing) (viewport : Size) :
  _sizing s = Some z ->
  BoxSizing.aspect z = None ->
  let clipped_width :=
    Math.max (BoxSizing.min_width z)
             (Math.min (Size.width viewport) (BoxSizing.max_width z)) in
  let clipped_height :=
    Math.max (BoxSizing.min_height z)
             (Math.min (Size.height viewport) (BoxSizing.max_height z)) in
  exists hint : SizeHint,
    measure (E := LayoutItem) viewport s = (inr hint, s) /\
    SizeHint.inner hint = None /\
    match BoxSizing.width_policy z, BoxSizing.width z with
    | SizingPolicy.fixed, Some w => SizeHint.width hint = w
    | _, _ =>
        SizeHint.width hint <> Number.Infinity /\
        (SizeHint.width hint = clipped_width \/
         (clipped_width = Number.Infinity /\ SizeHint.width hint = Number.zero))
    end /\
    match BoxSizing.height_policy z, BoxSizing.height z with
    | SizingPolicy.fixed, Some h => SizeHint.height hint = h
    | _, _ =>
        SizeHint.height hint <> Number.Infinity /\
        (SizeHint.height hint = clipped_height \/
         (clipped_height = Number.Infinity /\ SizeHint.height hint = Number.zero))
    end.
Proof.
  intros Hz Ha. cbv zeta.
  pose proof (measure_run (E := LayoutItem) s z Hz viewport) as Hrun.
  cbv zeta in Hrun. rewrite LayoutItem_measure_run in Hrun.
  rewrite Hz in Hrun. rewrite (apply_aspect_none s z Hz _ _ Ha) in Hrun.
  cbn [Size.width Size.height SizeHint.width SizeHint.height SizeHint.inner]
    in Hrun.
  eexists. split; [exact Hrun|]. split; [reflexivity|].
  cbn [SizeHint.width SizeHint.height].
  split.
  - destruct (BoxSizing.width_policy z), (BoxSizing.width z);
      cbn [SizingPolicy.eqb or_else]; try reflexivity; apply finite_or_zero.
  - destruct (BoxSizing.height_policy z), (BoxSizing.height z);
      cbn [SizingPolicy.eqb or_else]; try reflexivity; apply finite_or_zero.
Qed.

Lemma leaf_measure_is_bounded_witness :
  let s := Scenario.leaf Scenario.fixed_width_only in
  exists hint : SizeHint,
    measure (E := LayoutItem) Scenario.unbounded s = (inr hint, s) /\
    SizeHint.inner hint = None /\
    SizeHint.width hint = Number.of_Z 50 /\
    SizeHint.height hint = Number.zero.
Proof.
  cbv zeta.
  destruct (leaf_measure_is_bounded (Scenario.leaf Scenario.fixed_width_only)
              _ Scenario.unbounded eq_refl eq_refl)
    as (hint & Hrun & Hinner & Hw & Hh).
  exists hint. split; [exact Hrun|]. split; [exact Hinner|].
  vm_compute in Hw. vm_compute in Hh.
  split; [exact Hw|].
  destruct Hh as [Hne [Hh|[_ Hh]]]; [destruct (Hne Hh) | exact Hh].
Defined.

(** [apply_aspect] reads the policies only through their being "fixed". *)
Lemma apply_aspect_policies (s s' : Layoutable) (z : BoxSizing)
    (wp hp : SizingPolicy) (viewport size : Size) :
  _sizing s = Some z ->
  _sizing s' = Some (Scenario2.with_policies z wp hp) ->
  SizingPolicy.eqb wp SizingPolicy.fixed
  = SizingPolicy.eqb (BoxSizing.width_policy z) SizingPolicy.fixed ->
  SizingPolicy.eqb hp SizingPolicy.fixed
  = SizingPolicy.eqb (BoxSizing.height_policy z) SizingPolicy.fixed ->
  fst (apply_aspect viewport size s) = fst (apply_aspect viewport size s').
Proof.
  intros Hz Hz' Ew Eh.
  unfold apply_aspect, bind. cbv zeta.
  rewrite (sizing_some s z Hz), (sizing_some s' _ Hz').
  cbn [Scenario2.with_policies BoxSizing.aspect].
  destruct (BoxSizing.aspect z) as [r|]; [|reflexivity].
  rewrite (sizing_some s z Hz), (sizing_some s' _ Hz').
  cbn [Scenario2.with_policies BoxSizing.width_policy BoxSizing.height_policy].
  unfold SizingPolicy.neqb. rewrite Ew, Eh.
  destruct (SizingPolicy.eqb (BoxSizing.width_policy z) SizingPolicy.fixed),
    (SizingPolicy.eqb (BoxSizing.height_policy z) SizingPolicy.fixed);
    cbn [negb andb]; try reflexivity.
  match goal with |- context [(?a <=? ?b)%num] => destruct (a <=? b)%num end;
    reflexivity.
Qed.

(** X12: [measure] tells "fixed" from the other policies and nothing
    more. On a [LayoutItem], replacing a policy "fit", "min" or "max" by
    another of the three (or leaving "fixed" as "fixed") on either axis
    does not change what [measure] returns or throws, for any viewport;
    nor does the bounding box the element currently has. *)
Theorem leaf_measure_ignores_free_policies
    (z : BoxSizing) (wp hp : SizingPolicy) (b b' : BBox) (viewport : Size) :
  (wp = SizingPolicy.fixed <-> BoxSizing.width_policy z = SizingPolicy.fixed) ->
  (hp = SizingPolicy.fixed <-> BoxSizing.height_policy z = SizingPolicy.fixed) ->
  fst (measure (E := LayoutItem) viewport
         {| _bbox := b; _sizing := Some z |})
  = fst (measure (E := LayoutItem) viewport
           {| _bbox := b';
              _sizing := Some (Scenario2.with_policies z wp hp) |}).
Proof.
  intros Hw Hh.
  assert (Ew : SizingPolicy.eqb wp SizingPolicy.fixed
               = SizingPolicy.eqb (BoxSizing.width_policy z) SizingPolicy.fixed).
  { destruct wp, (BoxSizing.width_policy z); try reflexivity; exfalso;
      destruct Hw as [H1 H2];
      first [discriminate (H1 eq_refl) | discriminate (H2 eq_refl)]. }
  assert (Eh : SizingPolicy.eqb hp SizingPolicy.fixed
               = SizingPolicy.eqb (BoxSizing.height_policy z) SizingPolicy.fixed).
  { destruct hp, (BoxSizing.height_policy z); try reflexivity; exfalso;
      destruct Hh as [H1 H2];
      first [discriminate (H1 eq_refl) | discriminate (H2 eq_refl)]. }
  set (z' := Scenario2.with_policies z wp hp).
  set (s := {| _bbox := b; _sizing := Some z |}).
  set (s' := {| _bbox := b'; _sizing := Some z' |}).
  assert (Hz : _sizing s = Some z) by reflexivity.
  assert (Hz' : _sizing s' = Some z') by reflexivity.
  clearbody s s'.
  rewrite (measure_run (E := LayoutItem) s z Hz viewport).
  rewrite (measure_run (E := LayoutItem) s' z' Hz' viewport).
  cbv zeta. rewrite !LayoutItem_measure_run. rewrite Hz, Hz'.
  subst z'.
  cbn [Scenario2.with_policies BoxSizing.width_policy BoxSizing.height_policy
       BoxSizing.width BoxSizing.height BoxSizing.min_width
       BoxSizing.max_width BoxSizing.min_height BoxSizing.max_height].
  rewrite Ew, Eh.
  match goal with
  | |- fst (match apply_aspect ?v ?f s with _ => _ end) = _ =>
      pose proof (apply_aspect_policies s s' z wp hp v f Hz Hz' Ew Eh) as Hap;
      destruct (apply_aspect v f s) as [[e|size] t],
               (apply_aspect v f s') as [[e'|size'] t']
  end; cbn [fst] in *; congruence.
Qed.

Lemma leaf_measure_ignores_free_policies_witness :
  fst (measure (E := LayoutItem) (Scenario.size 100 100)
         (Scenario.leaf (Scenario2.policies SizingPolicy.fit SizingPolicy.fit)))
  = fst (measure (E := LayoutItem) (Scenario.size 100 100)
           (Scenario.leaf (Scenario2.policies SizingPolicy.max SizingPolicy.min))).
Proof.
  apply (leaf_measure_ignores_free_policies
           (BoxSizing.mk SizingPolicy.fit Number.zero None Number.Infinity
                         SizingPolicy.fit Number.zero None Number.Infinity
                         (Some (Number.of_Z 2))
                         (Margin.mk Number.zero Number.zero Number.zero Number.zero))
           SizingPolicy.max SizingPolicy.min).
  - split; discriminate.
  - split; discriminate.
Defined.

(** X13: the leaf with default sizing, on every viewport. After
    [set_sizing({})] on a new [LayoutItem], [measure] returns on every
    viewport, with no inner margin, and per axis: a dimension [d] with
    [0 <= d < Infinity] comes back [==] to [d] (and is [d] itself unless
    [d] is a zero); a negative dimension comes back as 0; [Infinity] comes
    back as 0; NaN comes back as NaN. *)
Theorem default_leaf_measure (viewport : Size) :
  let s := Scenario.leaf PartialBoxSizing.empty in
  let answers (d c : number) : Prop :=
    ((Number.zero <=? d)%num = true -> (d <? Number.Infinity)%num = true ->
     (c =? d)%num = true /\ (Number.is_zero d = false -> c = d)) /\
    ((d <? Number.zero)%num = true -> c = Number.zero) /\
    (d = Number.Infinity -> c = Number.zero) /\
    (d = Number.NaN -> c = Number.NaN) in
  exists hint : SizeHint,
    measure (E := LayoutItem) viewport s = (inr hint, s) /\
    SizeHint.inner hint = None /\
    answers (Size.width viewport) (SizeHint.width hint) /\
    answers (Size.height viewport) (SizeHint.height hint).
Proof.
  cbv zeta.
  assert (Hans : forall d,
    let c := Math.max Number.zero (Math.min d Number.Infinity) in
    let a := if negb (c =? Number.Infinity)%num then c else Number.zero in
    ((Number.zero <=? d)%num = true -> (d <? Number.Infinity)%num = true ->
     (a =? d)%num = true /\ (Number.is_zero d = false -> a = d)) /\
    ((d <? Number.zero)%num = true -> a = Number.zero) /\
    (d = Number.Infinity -> a = Number.zero) /\
    (d = Number.NaN -> a = Number.NaN)).
  { intros d. cbv zeta. repeat apply conj.
    - intros H0 Hinf.
      destruct (NumberOrderFacts.clamp_inside Number.zero Number.Infinity d H0
                  (NumberOrderFacts.ltb_leb _ _ Hinf)) as [Heq Hid].
      set (c := Math.max Number.zero (Math.min d Number.Infinity)) in *.
      assert (Hc : (c =? Number.Infinity)%num = false).
      { destruct (c =? Number.Infinity)%num eqn:Hci; [|reflexivity].
        apply NumberOrderFacts.eqb_spec in Hci, Heq.
        apply NumberOrderFacts.ltb_spec in Hinf.
        destruct Hci as (_ & _ & K1), Heq as (_ & _ & K2), Hinf as (_ & _ & K3).
        rewrite <- K2, K1 in K3.
        destruct (NumberOrderFacts.klt_irrefl _ K3). }
      rewrite Hc. cbn [negb]. split; assumption.
    - intros Hneg.
      rewrite (NumberOrderFacts.clamp_below Number.zero Number.Infinity d Hneg eq_refl).
      reflexivity.
    - intros ->. reflexivity.
    - intros ->. reflexivity. }
  pose proof (measure_run (E := LayoutItem)
                (Scenario.leaf PartialBoxSizing.empty) _ eq_refl viewport) as Hrun.
  cbv zeta in Hrun. rewrite LayoutItem_measure_run in Hrun.
  eexists. split; [exact Hrun|]. split; [reflexivity|].
  split; [apply (Hans (Size.width viewport)) | apply (Hans (Size.height viewport))].
Qed.

Lemma default_leaf_measure_witness :
  measure (E := LayoutItem) (Scenario.size (-3) 40)
    (Scenario.leaf PartialBoxSizing.empty)
  = (inr (SizeHint.mk Number.zero (Number.of_Z 40) None),
     Scenario.leaf PartialBoxSizing.empty).
Proof.
  destruct (default_leaf_measure (Scenario.size (-3) 40))
    as (hint & Hrun & Hinner & Hw & Hh).
  rewrite Hrun. destruct hint as [w h i]. cbn in Hinner, Hw, Hh.
  destruct Hw as (_ & Hneg & _). destruct Hh as (Hin & _).
  rewrite (Hneg ltac:(vm_compute; reflexivity)).
  rewrite (proj2 (Hin ltac:(vm_compute; reflexivity) ltac:(vm_compute; reflexivity))
             ltac:(vm_compute; reflexivity)).
  rewrite Hinner. reflexivity.
Defined.

(** ** The computed variables *)

(** X14: the computed variables are live views. For every accessor of
    the box, the variable built by the constructor reads the box the
    element holds when [value] is read, and writes nothing: on a new
    element that is the zero box, and after [set_geometry] with the
    default placement hook it is the outer box just stored, for
    variables created before the call as well. *)
Theorem computed_variables_are_live (E : Element)
    (top left width height right bottom hcenter vcenter : BBox -> number) :
  default_set_geometry E ->
  forall (outer : BBox) (inner : option BBox) (s : Layoutable),
    let s' := snd (set_geometry outer inner s) in
    let zero_box :=
      BBox_ltwh Number.zero Number.zero Number.zero Number.zero in
    (value (_top top) s' = (inr (top outer), s') /\
     value (_left left) s' = (inr (left outer), s') /\
     value (_width width) s' = (inr (width outer), s') /\
     value (_height height) s' = (inr (height outer), s') /\
     value (_right right) s' = (inr (right outer), s') /\
     value (_bottom bottom) s' = (inr (bottom outer), s') /\
     value (_hcenter hcenter) s' = (inr (hcenter outer), s') /\
     value (_vcenter vcenter) s' = (inr (vcenter outer), s')) /\
    (value (_width width) new_Layoutable
     = (inr (width zero_box), new_Layoutable) /\
     value (_height height) new_Layoutable
     = (inr (height zero_box), new_Layoutable)).
Proof.
  intros Hgeo outer inner s. cbv zeta.
  unfold set_geometry. rewrite Hgeo.
  unfold Base._set_geometry, put_bbox. cbn [snd].
  repeat split.
Qed.

Lemma computed_variables_are_live_witness :
  default_set_geometry LayoutItem /\
  forall width : BBox -> number,
    value (_width width)
      (snd (compute (E := LayoutItem)
              (Some (PartialSize.mk (Some (Number.of_Z 120)) (Some (Number.of_Z 40))))
              (Scenario.leaf PartialBoxSizing.empty)))
    = (inr (width (BBox_ltwh Number.zero Number.zero
                             (Number.of_Z 120) (Number.of_Z 40))),
       snd (compute (E := LayoutItem)
              (Some (PartialSize.mk (Some (Number.of_Z 120)) (Some (Number.of_Z 40))))
              (Scenario.leaf PartialBoxSizing.empty))).
Proof.
  assert (Hd : default_set_geometry LayoutItem) by (intros o i s; reflexivity).
  split; [exact Hd|]. intros width.
  destruct (computed_variables_are_live LayoutItem
              width width width width width width width width Hd
              (BBox_ltwh Number.zero Number.zero (Number.of_Z 120) (Number.of_Z 40))
              None (Scenario.leaf PartialBoxSizing.empty))
    as [(_ & _ & Hw & _) _].
  exact Hw.
Defined.

(** ** What the protocol does not depend on *)

(** [compute] with the default placement hook and a hook that writes
    nothing. *)
Lemma compute_default_run (E : Element) :
  default_set_geometry E ->
  (forall v, preserves_state (_measure v)) ->
  forall (viewport : option PartialSize.t) (s : Layoutable),
    compute viewport s =
    match fst (measure
                 {| Size.width :=
                      match viewport with
                      | Some v => or_else (PartialSize.width v) Number.Infinity
                      | None => Number.Infinity
                      end;
                    Size.height :=
                      match viewport with
                      | Some v => or_else (PartialSize.height v) Number.Infinity
                      | None => Number.Infinity
                      end |} s) with
    | inl e => (inl e, s)
    | inr hint =>
        (inr tt,
         {| _bbox := BBox_ltwh Number.zero Number.zero
                               (SizeHint.width hint) (SizeHint.height hint);
            _sizing := _sizing s |})
    end.
Proof.
  intros Hgeo Hhook viewport s. rewrite (compute_run viewport s).
  match goal with
  | |- context [measure ?f s] =>
      pose proof (measure_preserves f Hhook s) as Hs;
      destruct (measure f s) as [[e|hint] t]
  end; cbn [snd fst] in *; subst t; [reflexivity|].
  rewrite Hgeo. reflexivity.
Qed.

(** X15: [measure] does not read the bounding box. For every element
    whose [_measure] hook is a query of viewport and sizing, two states
    with the same sizing give [measure] the same outcome, whatever their
    bounding boxes; so do they for [apply_aspect] and [clip_size], for
    every element. *)
Theorem measure_reads_sizing_only (E : Element) :
  (forall v, pure (_measure v)) ->
  forall (viewport : Size) (s s' : Layoutable),
    _sizing s = _sizing s' ->
    fst (measure viewport s) = fst (measure viewport s') /\
    (forall size,
       fst (apply_aspect viewport size s) = fst (apply_aspect viewport size s')) /\
    fst (clip_size viewport s) = fst (clip_size viewport s').
Proof.
  intros Hhook viewport s s' Hs. split; [|split].
  - apply (measure_pure viewport Hhook). exact Hs.
  - intros size. apply apply_aspect_pure. exact Hs.
  - apply clip_size_pure. exact Hs.
Qed.

Lemma measure_reads_sizing_only_witness :
  let v := Some (PartialSize.mk (Some (Number.of_Z 120)) (Some (Number.of_Z 40))) in
  let s := Scenario.leaf PartialBoxSizing.empty in
  (forall v, pure (_measure (Element := LayoutItem) v)) /\
  _sizing s = _sizing (snd (compute (E := LayoutItem) v s)) /\
  fst (measure (E := LayoutItem) (Scenario.size 10 10) s)
  = fst (measure (E := LayoutItem) (Scenario.size 10 10)
           (snd (compute (E := LayoutItem) v s))).
Proof.
  cbv zeta. split; [exact LayoutItem_measure_pure|]. split; [reflexivity|].
  apply (measure_reads_sizing_only LayoutItem LayoutItem_measure_pure).
  reflexivity.
Defined.

(** X16: [compute] keeps no history. For every element with the default
    placement hook whose [_measure] hook is a query of viewport and
    sizing, the outcome of [compute(v)] is the same after any earlier
    [compute(u)] as without it, and when it returns, the state it leaves
    is the same too: the bounding box is overwritten wholesale. *)
Theorem compute_keeps_no_history (E : Element) :
  default_set_geometry E ->
  (forall v, pure (_measure v)) ->
  forall (u v : option PartialSize.t) (s : Layoutable),
    fst (compute v (snd (compute u s))) = fst (compute v s) /\
    (fst (compute v s) = inr tt ->
     compute v (snd (compute u s)) = compute v s).
Proof.
  intros Hgeo Hhook u v s.
  assert (Hpres : forall w, preserves_state (_measure w))
    by (intros w; apply Hhook).
  pose proof (compute_default_run E Hgeo Hpres) as Hrun.
  assert (Hsz : _sizing (snd (compute u s)) = _sizing s).
  { rewrite (Hrun u s). destruct (fst (measure _ s)); reflexivity. }
  set (s1 := snd (compute u s)) in *. clearbody s1.
  rewrite (Hrun v s1), (Hrun v s).
  match goal with
  | |- context [measure ?f s1] =>
      pose proof (proj2 (measure_pure f Hhook) s1 s Hsz) as Hf
  end.
  rewrite Hf.
  destruct (fst (measure _ s)) as [e|hint]; cbn [fst].
  - split; [reflexivity|]. discriminate.
  - split; [reflexivity|]. intros _. rewrite Hsz. reflexivity.
Qed.

Lemma compute_keeps_no_history_witness :
  let u := Some (PartialSize.mk (Some (Number.of_Z 120)) (Some (Number.of_Z 40))) in
  let v := Some (PartialSize.mk (Some (Number.of_Z 10)) None) in
  let s := Scenario.leaf PartialBoxSizing.empty in
  default_set_geometry LayoutItem /\
  (forall v, pure (_measure (Element := LayoutItem) v)) /\
  compute (E := LayoutItem) v (snd (compute (E := LayoutItem) u s))
  = (inr tt,
     {| _bbox := BBox_ltwh Number.zero Number.zero (Number.of_Z 10) Number.zero;
        _sizing := _sizing s |}).
Proof.
  cbv zeta.
  assert (Hd : default_set_geometry LayoutItem) by (intros o i s; reflexivity).
  split; [exact Hd|]. split; [exact LayoutItem_measure_pure|].
  etransitivity.
  - apply (proj2 (compute_keeps_no_history LayoutItem Hd LayoutItem_measure_pure
                    (Some (PartialSize.mk (Some (Number.of_Z 120)) (Some (Number.of_Z 40))))
                    (Some (PartialSize.mk (Some (Number.of_Z 10)) None))
                    (Scenario.leaf PartialBoxSizing.empty))).
    vm_compute; reflexivity.
  - vm_compute; reflexivity.
Defined.
